(** * Diurnal extrema extraction: a shallow embedding of [diurnal.py]

    The development follows the source file function by function.
    Python exceptions are values of [exn] carried by [result]; the one
    source of non-determinism, [random.randint] in [to_exact_indexing],
    reads its draws from an explicit tape of naturals that is threaded
    through every function that reaches it.

    Conventions for the pandas objects the source manipulates:
    - a [Timestamp] is the integer count of nanoseconds since the epoch
      (the [value] field of [pd.Timestamp]), timezone-naive;
    - a [Timedelta] is a count of nanoseconds;
    - a calendar day ([pd.Period] of frequency D) is its ordinal, the
      floor of the timestamp divided by the nanoseconds in a day;
    - the time series is the list of its (index, value) rows in index
      order, values being IEEE binary64 numbers;
    - label slicing [ts[a:b]] keeps the rows whose index lies in the
      closed interval, which is what pandas does on a sorted index;
      [None] leaves a side open and [NaT] sorts after every timestamp;
    - rounding a timestamp to a frequency of zero length leaves it where
      it is. *)

From Stdlib Require Import ZArith List Bool String QArith Lia PrimFloat.
From Stdlib Require FloatAxioms SpecFloat.
Import ListNotations.

Local Open Scope Z_scope.

(** ** Exceptions and results *)

Inductive exn : Type :=
  | ValueError
  | TypeError
  | AttributeError
  | IndexError
  | KeyError
  | UnboundLocalError
  | ZeroDivisionError.

Inductive result (A : Type) : Type :=
  | Ok (a : A)
  | Raise (e : exn).

Arguments Ok {A} a.
Arguments Raise {A} e.

Definition rbind {A B : Type} (c : result A) (k : A -> result B) : result B :=
  match c with
  | Ok a => k a
  | Raise e => Raise e
  end.

Notation "x <- c ;; k" := (rbind c (fun x => k))
  (at level 100, c at next level, right associativity).
Notation "' p <- c ;; k" := (rbind c (fun p => k))
  (at level 100, p pattern, c at next level, right associativity).

(** Computations that may call [random.randint]: the tape holds the
    draws still to come. *)

Definition tape : Type := list nat.

Definition rnd (A : Type) : Type := tape -> result (A * tape).

Definition ret {A : Type} (a : A) : rnd A := fun tp => Ok (a, tp).

Definition lift {A : Type} (c : result A) : rnd A :=
  fun tp => match c with Ok a => Ok (a, tp) | Raise e => Raise e end.

Definition mbind {A B : Type} (c : rnd A) (k : A -> rnd B) : rnd B :=
  fun tp =>
    match c tp with
    | Ok (a, tp') => k a tp'
    | Raise e => Raise e
    end.

Notation "x <~ c ;; k" := (mbind c (fun x => k))
  (at level 100, c at next level, right associativity).
Notation "' p <~ c ;; k" := (mbind c (fun p => k))
  (at level 100, p pattern, c at next level, right associativity).

(** [random.randint(lo, hi)], both ends included.  A draw [x] from the
    tape is folded into the range; an exhausted tape yields [lo]. *)
Definition randint (lo hi : Z) : rnd Z :=
  fun tp =>
    match tp with
    | [] => Ok (lo, [])
    | x :: tp' => Ok (lo + Z.of_nat x mod (hi - lo + 1), tp')
    end.

(** ** Timestamps, timedeltas and periods *)

Definition Timestamp : Type := Z.
Definition Timedelta : Type := Z.

Definition ns_per_second : Z := 1000000000.
Definition ns_per_minute : Z := 60 * ns_per_second.
Definition ns_per_hour : Z := 60 * ns_per_minute.
Definition ns_per_day : Z := 24 * ns_per_hour.

Definition Timedelta_hours (h : Z) : Timedelta := h * ns_per_hour.
Definition Timedelta_days (d : Z) : Timedelta := d * ns_per_day.

(** [Timedelta.components.minutes] and [.seconds]: the minute and second
    fields left once whole days and hours are taken out. *)
Definition components_minutes (td : Timedelta) : Z := (td / ns_per_minute) mod 60.
Definition components_seconds (td : Timedelta) : Z := (td / ns_per_second) mod 60.

(** Frequency strings built by the source: [str(n)+'T'] and [str(n)+'s']. *)
Inductive freq : Type :=
  | Minutes (n : Z)
  | Seconds (n : Z).

Definition freq_nanos (f : freq) : Z :=
  match f with
  | Minutes n => n * ns_per_minute
  | Seconds n => n * ns_per_second
  end.

(** [numpy.remainder] on int64, with which pandas 1.x rounds
    timestamps: the sign follows the divisor and a zero divisor gives
    zero (with a warning). *)
Definition np_remainder (a b : Z) : Z := if b =? 0 then 0 else a mod b.

Definition Timestamp_ceil (t : Timestamp) (f : freq) : Timestamp :=
  t + np_remainder (- t) (freq_nanos f).

Definition Timestamp_floor (t : Timestamp) (f : freq) : Timestamp :=
  t - np_remainder t (freq_nanos f).

(** [Timestamp.round]: to the nearest multiple of [unit], ties to the
    even multiple. *)
Definition Timestamp_round (t : Timestamp) (unit : Z) : Timestamp :=
  if Z.odd unit then (t - unit / 2) + np_remainder (- (t - unit / 2)) unit
  else
    let q := t / unit in
    let r := t mod unit in
    if (unit / 2 <? r) || ((r =? unit / 2) && Z.odd q)
    then (q + 1) * unit
    else q * unit.

Definition Timestamp_hour (t : Timestamp) : Z := (t mod ns_per_day) / ns_per_hour.

(** [index.to_period('D')], [Period.start_time], [Period.end_time]. *)
Definition to_period_D (t : Timestamp) : Z := t / ns_per_day.
Definition Period_start_time (d : Z) : Timestamp := d * ns_per_day.
Definition Period_end_time (d : Z) : Timestamp := (d + 1) * ns_per_day - 1.

(** ** The time series *)

Definition Series : Type := list (Timestamp * float).

Definition index (ts : Series) : list Timestamp := map fst ts.

Definition in_index (t : Timestamp) (ts : Series) : bool :=
  existsb (Z.eqb t) (index ts).

Definition is_nan (x : float) : bool := negb (PrimFloat.eqb x x).

Definition dropna (ts : Series) : Series :=
  filter (fun p => negb (is_nan (snd p))) ts.

(** A timestamp or [pd.NaT], the missing timestamp. *)
Inductive stamp : Type :=
  | At (t : Timestamp)
  | NaT.

(** The labels of a slice [ts[a:b]]: an absent bound ([None]) is open, a
    timestamp bounds the slice on its side, and [NaT], which is looked
    up by position like any label missing from the index, sorts after
    every timestamp: the slice starts or stops past the last row. *)
Inductive label : Type :=
  | LOpen
  | LTime (t : Timestamp)
  | LNaT.

Definition label_slice (a b : label) (ts : Series) : Series :=
  filter (fun p =>
            match a with
            | LOpen => true
            | LTime lo => lo <=? fst p
            | LNaT => false
            end
            && match b with
               | LOpen => true
               | LTime hi => fst p <=? hi
               | LNaT => true
               end) ts.

Definition loc_slice (a b : Timestamp) (ts : Series) : Series :=
  label_slice (LTime a) (LTime b) ts.

Definition stamp_label (s : stamp) : label :=
  match s with
  | At t => LTime t
  | NaT => LNaT
  end.

Definition stamp_slice (a b : stamp) (ts : Series) : Series :=
  label_slice (stamp_label a) (stamp_label b) ts.

(** [ts[i:j]] with integers: positional, with Python's treatment of a
    negative or overlong bound. *)
Definition py_clip (n i : Z) : Z :=
  if i <? 0 then Z.max 0 (i + n) else Z.min i n.

Definition py_slice {A : Type} (i j : Z) (l : list A) : list A :=
  let n := Z.of_nat (List.length l) in
  let a := py_clip n i in
  let b := py_clip n j in
  firstn (Z.to_nat (b - a)) (skipn (Z.to_nat a) l).

(** [index.get_loc(t)] on an index without duplicates. *)
Fixpoint find_loc (t : Timestamp) (l : list Timestamp) (pos : Z) : option Z :=
  match l with
  | [] => None
  | x :: r => if x =? t then Some pos else find_loc t r (pos + 1)
  end.

Definition get_loc (t : Timestamp) (ts : Series) : result Z :=
  match find_loc t (index ts) 0 with
  | Some i => Ok i
  | None => Raise KeyError
  end.

(** [index.unique()]: first occurrences, in order. *)
Fixpoint unique_from (seen l : list Z) : list Z :=
  match l with
  | [] => []
  | x :: r =>
      if existsb (Z.eqb x) seen then unique_from seen r
      else x :: unique_from (x :: seen) r
  end.

Definition unique (l : list Z) : list Z := unique_from [] l.

Definition index_first (ts : Series) : result Timestamp :=
  match ts with
  | [] => Raise IndexError
  | p :: _ => Ok (fst p)
  end.

Definition index_last (ts : Series) : result Timestamp :=
  match rev ts with
  | [] => Raise IndexError
  | p :: _ => Ok (fst p)
  end.

(** ** Module-level helpers of the source *)

(** An extremum as the source passes it around: a (value, time) tuple,
    [(None, None)] when nothing was found. *)
Definition extremum : Type := (option float * option Timestamp)%type.

Definition not_found : extremum := (None, None).

Definition _bool_is_same (bound : Timestamp) (time : option Timestamp) : bool :=
  match time with
  | Some t => bound =? t
  | None => false
  end.

(** [ts.max(), ts.idxmax()] and [ts.min(), ts.idxmin()] on a series free
    of NaN: the first row holding the extreme value.  On an empty series
    [idxmax]/[idxmin] raise [ValueError]. *)
Fixpoint first_best (better : float -> float -> bool)
         (best : Timestamp * float) (l : Series) : Timestamp * float :=
  match l with
  | [] => best
  | p :: r =>
      if better (snd p) (snd best) then first_best better p r
      else first_best better best r
  end.

Definition get_max (ts : Series) : result (float * Timestamp) :=
  match ts with
  | [] => Raise ValueError
  | p :: r =>
      let b := first_best (fun x y => PrimFloat.ltb y x) p r in
      Ok (snd b, fst b)
  end.

Definition get_min (ts : Series) : result (float * Timestamp) :=
  match ts with
  | [] => Raise ValueError
  | p :: r =>
      let b := first_best (fun x y => PrimFloat.ltb x y) p r in
      Ok (snd b, fst b)
  end.

Definition check_input (value : string) (args : list string) : result unit :=
  if existsb (String.eqb value) args then Ok tt else Raise ValueError.

Definition check_length {A : Type} (data : list A) (args : list nat)
  : result bool :=
  if existsb (Nat.eqb (List.length data)) args then Ok true
  else Raise ValueError.

Definition make_end_of_day (t : Timestamp) : Timestamp :=
  (t / ns_per_day) * ns_per_day
  + (23 * 3600 + 59 * 60 + 59) * ns_per_second
  + t mod ns_per_second.

(** Window bounds as Python objects: a [pd.Timestamp], a [str], [None]
    or [pd.NaT] (which is not an instance of [pd.Timestamp]). *)
Inductive bound : Type :=
  | BTimestamp (t : Timestamp)
  | BStr (s : string)
  | BNone
  | BNaT.

(** A window specification: a tuple or list of bounds, a [pd.Period],
    an [int], or an object of any other type. *)
Inductive Window : Type :=
  | WSeq (items : list bound)
  | WPeriod (day : Z)
  | WInt (n : Z)
  | WOther.

Definition start_before_end (start end_ : bound) : result bool :=
  match start, end_ with
  | BTimestamp s, BTimestamp e =>
      if s <? e then Ok true else Raise ValueError
  | _, _ => Raise TypeError
  end.

(** The two edges of a window, [start_or_end = 'start', 'end']. *)
Inductive edge : Type :=
  | EStart
  | EEnd.

(** The first or last index of the window slice. *)

Definition get_index_of_bound (timeseries : Series)
           (w : stamp * stamp) (end_point : edge) : result Timestamp :=
  let subset := stamp_slice (fst w) (snd w) timeseries in
  match end_point with
  | EEnd => index_last subset
  | EStart => index_first subset
  end.

(** [new_tup[0] in extrema_tup]: the float is compared with each field
    of the tuple; a float never equals a [Timestamp] or [None]. *)
Definition float_eq_value (x : float) (v : option float) : bool :=
  match v with
  | Some y => PrimFloat.eqb x y
  | None => false
  end.

Definition float_eq_time (x : float) (t : option Timestamp) : bool := false.

Definition in_tuple (x : float) (tup : extremum) : bool :=
  float_eq_value x (fst tup) || float_eq_time x (snd tup).

Definition neighborhood (timeseries : Series) (bound_idx : Z) : Series :=
  py_slice (bound_idx - 5) (bound_idx + 5) timeseries.

Definition bool_check_around_bound (timeseries : Series) (bound : Timestamp)
           (extrema_tup : extremum) (val_type : string) : result bool :=
  _ <- check_input val_type ["min"; "max"]%string ;;
  bound_idx <- get_loc bound timeseries ;;
  let subset := neighborhood timeseries bound_idx in
  if (List.length subset <? 3)%nat then Ok false
  else
    new_tup <- (if String.eqb val_type "max" then get_max subset
                else get_min subset) ;;
    Ok (_bool_is_same (snd new_tup) (snd extrema_tup)
        || in_tuple (fst new_tup) extrema_tup).

(** [on_boundary], instrumented: next to the verdict the run lists which
    window edges the loop body examined and at which it called
    [bool_check_around_bound]. *)
Inductive event : Type :=
  | Examined (e : edge)
  | Rechecked (e : edge).

(** The bound the loop compares with the extremum: the window bound
    itself when it is a sample, else the nearest sample inside the
    window at that edge. *)
Definition stamp_in_index (bound : stamp) (timeseries : Series) : bool :=
  match bound with
  | At t => in_index t timeseries
  | NaT => false
  end.

Definition effective_bound (timeseries : Series) (w : stamp * stamp)
           (e : edge) (bound : stamp) : result Timestamp :=
  match bound with
  | At t =>
      if negb (stamp_in_index bound timeseries)
      then get_index_of_bound timeseries w e
      else Ok t
  | NaT => get_index_of_bound timeseries w e
  end.

Definition check_edge (timeseries : Series) (w : stamp * stamp)
           (extrema_tuple : extremum) (val_type : string)
           (e : edge) (bound : stamp) : list event * result bool :=
  match effective_bound timeseries w e bound with
  | Raise ex => ([Examined e], Raise ex)
  | Ok b =>
      if _bool_is_same b (snd extrema_tuple)
      then ([Examined e; Rechecked e],
            bool_check_around_bound timeseries b extrema_tuple val_type)
      else ([Examined e], Ok true)
  end.

Definition on_boundary_run (timeseries : Series) (w : stamp * stamp)
           (extrema_tuple : extremum) (val_type : string)
  : list event * result bool :=
  let '(tr1, r1) :=
    check_edge timeseries w extrema_tuple val_type EStart (fst w) in
  match r1 with
  | Raise ex => (tr1, Raise ex)
  | Ok false => (tr1, Ok false)
  | Ok true =>
      let '(tr2, r2) :=
        check_edge timeseries w extrema_tuple val_type EEnd (snd w) in
      (tr1 ++ tr2, r2)
  end.

Definition on_boundary (timeseries : Series) (w : stamp * stamp)
           (extrema_tuple : extremum) (val_type : string) : result bool :=
  snd (on_boundary_run timeseries w extrema_tuple val_type).

(** ** Hours of occurrence

    The mean hours are Python floats in the source.  A float is kept
    here as the exact rational it stands for.  The quotient
    [sum(l) / len(l)] of two integers is the binary64 number nearest to
    the exact quotient; [round(x, 3)] rounds the exact value of that
    binary64 number to the nearest thousandth, ties to even, and the
    float it returns is written as that thousandth;
    [pd.Timedelta(hours=h)] is [h] hours rounded to the microsecond as
    [datetime.timedelta] does. *)

Definition Zround_half_even (n d : Z) : Z :=
  let q := n / d in
  let r := n mod d in
  if (d <? 2 * r) || ((2 * r =? d) && Z.odd q) then q + 1 else q.

Definition round3 (q : Q) : Q :=
  Qmake (Zround_half_even (1000 * Qnum q) (Zpos (Qden q))) 1000.

(** The binary exponent of [a / d] for positive integers: the floor of
    its base-2 logarithm. *)
Definition binary64_exponent (a d : Z) : Z :=
  let e0 := Z.log2 a - Z.log2 d in
  if (if 0 <=? e0 then d * 2 ^ e0 <=? a else d <=? a * 2 ^ (- e0))
  then e0 else e0 - 1.

(** True division [n / d] of two Python integers: the binary64 number
    nearest to the exact quotient, ties to the even significand of 53
    bits.  The quotients met here are means of hours of the day, far
    from the range limits of the format. *)
Definition binary64_quotient (n : Z) (d : positive) : Q :=
  if n =? 0 then Qmake 0 1
  else
    let a := Z.abs n in
    let p := 52 - binary64_exponent a (Zpos d) in
    if 0 <=? p
    then Qmake (Z.sgn n * Zround_half_even (a * 2 ^ p) (Zpos d))
               (Z.to_pos (2 ^ p))
    else Qmake (Z.sgn n * Zround_half_even a (Zpos d * 2 ^ (- p)) * 2 ^ (- p))
               1.

Definition sum_hours (l : list Z) : Z := fold_right Z.add 0 l.

Definition mean_occurance (occurance_list : list Z) : result Q :=
  match occurance_list with
  | [] => Raise ZeroDivisionError
  | _ :: _ =>
      Ok (round3 (binary64_quotient
                    (sum_hours occurance_list)
                    (Pos.of_nat (List.length occurance_list))))
  end.

Definition Timedelta_of_hours (h : Q) : Timedelta :=
  1000 * Zround_half_even (Qnum h * 3600000000) (Zpos (Qden h)).

Definition create_timewindow (day : Z) (center : Q) (numhours : Z)
  : Timestamp * Timestamp :=
  let window_start :=
    Period_start_time day + Timedelta_of_hours (center - inject_Z numhours) in
  let window_end :=
    Period_start_time day + Timedelta_of_hours (center + inject_Z numhours) in
  (Timestamp_round window_start ns_per_second,
   Timestamp_round window_end ns_per_second).

Definition get_occurance_windows (day : Z) (window_length : Z) (args : list Q)
  : list (Timestamp * Timestamp) :=
  map (fun time => create_timewindow day time window_length) args.

(** [occurance_time.round('H').hour] appended to the list; [None] has no
    [round]. *)
Definition add_occurance (occurance_time : option Timestamp)
           (occurance_list : list Z) : result (list Z) :=
  match occurance_time with
  | None => Raise AttributeError
  | Some t =>
      Ok (occurance_list ++ [Timestamp_hour (Timestamp_round t ns_per_hour)])
  end.

(** ** The parts of pandas that read strings

    The source hands strings to [pd.to_datetime], to label slicing and
    to [pd.Period].  What these make of a string is taken as given. *)
Record parsers : Type := {
  to_datetime : string -> result Timestamp;
  slice_bound : edge -> string -> result Timestamp;
  Period_of_str : string -> result Z
}.

Section WithParsers.

Variable P : parsers.

(** ** [to_exact_indexing] *)

(** The first half of the function: the type dispatch that leaves
    [start] and [end] bound (or not). *)
Definition raw_bounds (w : Window) (timeseries : Series)
  : result (bound * bound) :=
  match w with
  | WSeq items =>
      _ <- check_length items [2%nat] ;;
      match items with
      | [start; end_] =>
          match start, end_ with
          | BTimestamp _, BTimestamp _ =>
              _ <- start_before_end start end_ ;;
              Ok (start, end_)
          | BStr s, BStr e =>
              if String.eqb s "first" then
                t0 <- index_first timeseries ;;
                e' <- to_datetime P e ;;
                Ok (BTimestamp t0, BTimestamp (make_end_of_day e'))
              else if String.eqb e "last" then
                t1 <- index_last timeseries ;;
                s' <- to_datetime P s ;;
                Ok (BTimestamp s', BTimestamp t1)
              else
                s' <- to_datetime P s ;;
                e' <- to_datetime P e ;;
                Ok (BTimestamp s', BTimestamp (make_end_of_day e'))
          | _, _ => Ok (start, end_)
          end
      | _ => Raise ValueError
      end
  | WPeriod day =>
      Ok (BTimestamp (Period_start_time day),
          BTimestamp (Period_end_time day))
  | WInt n =>
      start <- index_first timeseries ;;
      Ok (BTimestamp start,
          BTimestamp (make_end_of_day (start + Timedelta_days n)))
  | WOther => Raise UnboundLocalError
  end.

(** [timeseries[start:end]] for bounds of any kind. *)
Definition slice_label (side : edge) (b : bound) : result label :=
  match b with
  | BTimestamp t => Ok (LTime t)
  | BNone => Ok LOpen
  | BNaT => Ok LNaT
  | BStr s => t <- slice_bound P side s ;; Ok (LTime t)
  end.

Definition slice_between (start end_ : bound) (timeseries : Series)
  : result Series :=
  a <- slice_label EStart start ;;
  b <- slice_label EEnd end_ ;;
  Ok (label_slice a b timeseries).

(** [start.ceil(res)] and [end.floor(res)]: a [Timestamp] is rounded,
    [NaT] stays [NaT], and [None] and [str] have no such method. *)
Definition bound_ceil (b : bound) (f : freq) : result stamp :=
  match b with
  | BTimestamp t => Ok (At (Timestamp_ceil t f))
  | BNaT => Ok NaT
  | BStr _ | BNone => Raise AttributeError
  end.

Definition bound_floor (b : bound) (f : freq) : result stamp :=
  match b with
  | BTimestamp t => Ok (At (Timestamp_floor t f))
  | BNaT => Ok NaT
  | BStr _ | BNone => Raise AttributeError
  end.

Definition window_res (time_between_data : Timedelta) : freq :=
  if components_minutes time_between_data =? 0
  then Seconds (components_seconds time_between_data)
  else Minutes (components_minutes time_between_data).

(** The second half: match the data resolution. *)
Definition match_resolution (start end_ : bound) (timeseries : Series)
  : rnd (option (stamp * stamp)) :=
  subset <~ lift (slice_between start end_ timeseries) ;;
  if negb (Nat.eqb (List.length subset) 0) && (2 <? List.length subset)%nat
  then
    idx <~ randint 1 (Z.of_nat (List.length subset) - 1) ;;
    let time_between_data :=
      nth (Z.to_nat idx) (index subset) 0
      - nth (Z.to_nat (idx - 1)) (index subset) 0 in
    let res := window_res time_between_data in
    s' <~ lift (bound_ceil start res) ;;
    e' <~ lift (bound_floor end_ res) ;;
    ret (Some (s', e'))
  else ret None.

Definition to_exact_indexing (w : Window) (timeseries : Series)
  : rnd (option (stamp * stamp)) :=
  '(start, end_) <~ lift (raw_bounds w timeseries) ;;
  match_resolution start end_ timeseries.

(** ** The class [DiurnalExtrema] *)

Record DiurnalExtrema : Type := {
  timeseries : Series;
  minfirst : bool;
  maxnextday : bool;
  predictTiming : bool;
  window : Window;
  threshold : option float
}.

(** One row of [self.df], indexed by [Date]; a missing cell (NaN, NaT)
    is [None]. *)
Record DailyRecord : Type := {
  Date : Z;
  min_val : option float;
  min_time : option Timestamp;
  max_val : option float;
  max_time : option Timestamp
}.

Definition ResultTable : Type := list DailyRecord.

Definition get_extrema (ts : Series) (min_or_max : string) : result extremum :=
  _ <- check_input min_or_max ["min"; "max"]%string ;;
  tup <- (if String.eqb min_or_max "max" then get_max ts else get_min ts) ;;
  Ok (Some (fst tup), Some (snd tup)).

Definition get_real_extrema (ts : Series) (w : Window) (min_or_max : string)
  : rnd extremum :=
  _ <~ lift (check_input min_or_max ["min"; "max"]%string) ;;
  w' <~ to_exact_indexing w ts ;;
  match w' with
  | None => ret not_found
  | Some exact =>
      extremaTuple <~
        lift (get_extrema (stamp_slice (fst exact) (snd exact) ts)
                          min_or_max) ;;
      ok <~ lift (on_boundary ts exact extremaTuple min_or_max) ;;
      if negb ok then ret not_found else ret extremaTuple
  end.

(** The tuple [(minTime, minTime + pd.Timedelta(hours=18))].  With
    [minTime] being [None] the sum is computed by the reflected addition
    of [Timedelta], which reads [None] as a missing timedelta and
    answers [NaT]. *)
Definition window_after (minTime : option Timestamp) : Window :=
  match minTime with
  | None => WSeq [BNone; BNaT]
  | Some t => WSeq [BTimestamp t; BTimestamp (t + Timedelta_hours 18)]
  end.

Definition time_truthy (t : option Timestamp) : bool :=
  match t with
  | Some _ => true
  | None => false
  end.

(** Python truth value of a float or [None]. *)
Definition val_truthy (v : option float) : bool :=
  match v with
  | Some x => negb (PrimFloat.eqb x 0)
  | None => false
  end.

Definition val_gt (a b : option float) : bool :=
  match a, b with
  | Some x, Some y => PrimFloat.ltb y x
  | _, _ => false
  end.

(** The loop of [predict_extrema] over the calibration days. *)
Fixpoint predict_loop (self : DiurnalExtrema) (calib_data : Series)
         (days : list Z) (min_occurs max_occurs : list Z)
  : rnd (list Z * list Z) :=
  match days with
  | [] => ret (min_occurs, max_occurs)
  | day :: rest =>
      '(minVal, minTime) <~ get_real_extrema calib_data (WPeriod day) "min" ;;
      '(maxVal, maxTime) <~
        (if time_truthy minTime && minfirst self && maxnextday self
         then get_real_extrema calib_data (window_after minTime) "max"
         else get_real_extrema calib_data (WPeriod day) "max") ;;
      min_occurs' <~ lift (add_occurance minTime min_occurs) ;;
      max_occurs' <~ lift (add_occurance maxTime max_occurs) ;;
      predict_loop self calib_data rest min_occurs' max_occurs'
  end.

Definition predict_extrema (self : DiurnalExtrema) : rnd (Q * Q) :=
  exact <~ to_exact_indexing (window self) (timeseries self) ;;
  match exact with
  | None => lift (Raise TypeError)
  | Some (start_time, end_time) =>
      let calib_data := stamp_slice start_time end_time (timeseries self) in
      match calib_data with
      | [] => lift (Raise ValueError)
      | _ :: _ =>
          '(min_occurs, max_occurs) <~
            predict_loop self calib_data
              (unique (map to_period_D (index calib_data))) [] [] ;;
          mn <~ lift (mean_occurance min_occurs) ;;
          mx <~ lift (mean_occurance max_occurs) ;;
          ret (mn, mx)
      end
  end.

(** [functools.lru_cache]: the first value returned is kept. *)
Definition cached_predict_extrema (self : DiurnalExtrema)
           (cache : option (Q * Q)) : rnd (Q * Q) :=
  match cache with
  | Some v => ret v
  | None => predict_extrema self
  end.

(** The search of one day in [find_diurnal_extrema], up to the
    consistency check. *)
Definition search_day (self : DiurnalExtrema) (cache : option (Q * Q))
           (day : Z) : rnd (extremum * extremum * option (Q * Q)) :=
  if predictTiming self then
    '(minOccurs, maxOccurs) <~ cached_predict_extrema self cache ;;
    match get_occurance_windows day 8 [minOccurs; maxOccurs] with
    | [min_window; max_window] =>
        '(minVal, minTime) <~
          get_real_extrema (timeseries self)
            (WSeq [BTimestamp (fst min_window); BTimestamp (snd min_window)])
            "min" ;;
        let max_window' :=
          match minTime with
          | Some t =>
              if minfirst self && (fst max_window <? t)
              then (t, snd max_window) else max_window
          | None => max_window
          end in
        maxTup <~
          get_real_extrema (timeseries self)
            (WSeq [BTimestamp (fst max_window'); BTimestamp (snd max_window')])
            "max" ;;
        ret ((minVal, minTime), maxTup, Some (minOccurs, maxOccurs))
    | _ => lift (Raise ValueError)
    end
  else
    '(minVal, minTime) <~
      get_real_extrema (timeseries self) (WPeriod day) "min" ;;
    maxTup <~
      (if minfirst self && maxnextday self
       then get_real_extrema (timeseries self) (window_after minTime) "max"
       else get_real_extrema (timeseries self) (WPeriod day) "max") ;;
    ret ((minVal, minTime), maxTup, cache).

(** [if maxVal and minVal and minVal > maxVal: continue] *)
Definition skip_day (minVal maxVal : option float) : bool :=
  val_truthy maxVal && val_truthy minVal && val_gt minVal maxVal.

Fixpoint extract_loop (self : DiurnalExtrema) (days : list Z)
         (cache : option (Q * Q)) (diurnal_vals : list DailyRecord)
  : rnd (list DailyRecord) :=
  match days with
  | [] => ret diurnal_vals
  | day :: rest =>
      '(mn, mx, cache') <~ search_day self cache day ;;
      if skip_day (fst mn) (fst mx)
      then extract_loop self rest cache' diurnal_vals
      else
        extract_loop self rest cache'
          (diurnal_vals ++
             [{| Date := day;
                 min_val := fst mn; min_time := snd mn;
                 max_val := fst mx; max_time := snd mx |}])
  end.

Definition amplitude (r : DailyRecord) : option float :=
  match max_val r, min_val r with
  | Some a, Some b => Some (PrimFloat.sub a b)
  | _, _ => None
  end.

(** [(df.max_val - df.min_val) < threshold], row by row: a missing
    amplitude compares false. *)
Definition below_threshold (thr : float) (r : DailyRecord) : bool :=
  match amplitude r with
  | Some a => PrimFloat.ltb a thr
  | None => false
  end.

(** [df.drop(labels)]: every row carrying one of the labels goes. *)
Definition drop (labels : list Z) (df : ResultTable) : ResultTable :=
  filter (fun r => negb (existsb (Z.eqb (Date r)) labels)) df.

(** [df[(df.max_val - df.min_val) < threshold].index] *)
Definition labels_below (thr : float) (df : ResultTable) : list Z :=
  map Date (filter (below_threshold thr) df).

Definition apply_threshold (thr : option float) (df : ResultTable)
  : ResultTable :=
  match thr with
  | Some t => drop (labels_below t df) df
  | None => df
  end.

(** [pd.DataFrame(self.diurnal_vals).set_index('Date')]: without rows
    there is no column to index by. *)
Definition DataFrame_set_index (diurnal_vals : list DailyRecord)
  : result ResultTable :=
  match diurnal_vals with
  | [] => Raise KeyError
  | _ :: _ => Ok diurnal_vals
  end.

Definition find_diurnal_extrema (self : DiurnalExtrema) : rnd ResultTable :=
  vals <~
    extract_loop self
      (unique (map to_period_D (index (timeseries self)))) None [] ;;
  df <~ lift (DataFrame_set_index vals) ;;
  ret (apply_threshold (threshold self) df).

(** [__init__]: nulls are dropped, then the table is built. *)
Definition init (ts : Series) (minfirst_ maxnextday_ predictTiming_ : bool)
           (w : Window) (thr : option float) : DiurnalExtrema :=
  {| timeseries := dropna ts;
     minfirst := minfirst_;
     maxnextday := maxnextday_;
     predictTiming := predictTiming_;
     window := w;
     threshold := thr |}.

(** ** [change_extrema_picks] *)

(** The Python objects the method receives for [new_extrema]. *)
Inductive pyval : Type :=
  | PNone
  | PFloat (x : float)
  | PTimestamp (t : Timestamp)
  | PStr (s : string)
  | PTuple (a b : pyval).

(** The [day] argument: a [str] or a [pd.Period]. *)
Inductive pyday : Type :=
  | DayStr (s : string)
  | DayPeriod (d : Z).

Definition Period_of (day : pyday) : result Z :=
  match day with
  | DayStr s => Period_of_str P s
  | DayPeriod d => Ok d
  end.

Definition add_time (day : pyday) (time : string) : result string :=
  match day with
  | DayStr s => Ok (s ++ " " ++ time)%string
  | DayPeriod _ => Raise TypeError
  end.

Fixpoint extrema_slice (day : pyday) (times : list string)
  : result (list string) :=
  match times with
  | [] => Ok []
  | x :: r =>
      t <- add_time day x ;;
      rest <- extrema_slice day r ;;
      Ok (t :: rest)
  end.

Definition is_tuple (v : pyval) : bool :=
  match v with
  | PTuple _ _ => true
  | _ => false
  end.

(** [value, time = new_extrema if isinstance(new_extrema, tuple) else
    None, None]: the conditional expression is the first item of the
    tuple on the right, [None] the second. *)
Definition unpack_new_extrema (new_extrema : pyval) : pyval * pyval :=
  ((if is_tuple new_extrema then new_extrema else PNone), PNone).

(** [df.loc[idx, col] = value] for one cell: a tuple of two items is
    list-like and does not fit a single cell; [None] is stored as a
    missing value.  The source assigns no other kind of object. *)
Definition as_val_cell (value : pyval) : result (option float) :=
  match value with
  | PNone => Ok None
  | PFloat x => Ok (Some x)
  | PTuple _ _ => Raise ValueError
  | _ => Raise TypeError
  end.

Definition as_time_cell (time : pyval) : result (option Timestamp) :=
  match time with
  | PNone => Ok None
  | PTimestamp t => Ok (Some t)
  | PTuple _ _ => Raise ValueError
  | _ => Raise TypeError
  end.

Definition set_val (which : string) (c : option float) (r : DailyRecord)
  : DailyRecord :=
  if String.eqb which "min"
  then {| Date := Date r; min_val := c; min_time := min_time r;
          max_val := max_val r; max_time := max_time r |}
  else {| Date := Date r; min_val := min_val r; min_time := min_time r;
          max_val := c; max_time := max_time r |}.

Definition set_time (which : string) (c : option Timestamp) (r : DailyRecord)
  : DailyRecord :=
  if String.eqb which "min"
  then {| Date := Date r; min_val := min_val r; min_time := c;
          max_val := max_val r; max_time := max_time r |}
  else {| Date := Date r; min_val := min_val r; min_time := min_time r;
          max_val := max_val r; max_time := c |}.

Definition at_label (idx : Z) (f : DailyRecord -> DailyRecord)
           (df : ResultTable) : ResultTable :=
  map (fun r => if Date r =? idx then f r else r) df.

Fixpoint set_picks (idx : Z) (extrema : list string) (value time : pyval)
         (df : ResultTable) : result ResultTable :=
  match extrema with
  | [] => Ok df
  | which :: rest =>
      v <- as_val_cell value ;;
      let df1 := at_label idx (set_val which v) df in
      t <- as_time_cell time ;;
      let df2 := at_label idx (set_time which t) df1 in
      set_picks idx rest value time df2
  end.

(** [self.df.loc[idx, col]] read for the message printed under
    [verbose]: the table has no other column than these four. *)
Definition loc_column (col : string) : result unit :=
  if existsb (String.eqb col)
             ["min_val"; "min_time"; "max_val"; "max_time"]%string
  then Ok tt else Raise KeyError.

Definition change_extrema_picks (self : DiurnalExtrema) (df : ResultTable)
           (day : pyday) (which : string) (new_extrema : pyval)
           (find_between : list string) (verbose : bool)
  : result ResultTable :=
  _ <- check_input which ["min"; "max"; "both"]%string ;;
  idx <- Period_of day ;;
  if negb (existsb (Z.eqb idx) (map Date df)) then Raise ValueError
  else
    let extrema :=
      if String.eqb which "both" then ["min"; "max"]%string else [which] in
    '(value, time) <-
      (match find_between with
       | _ :: _ =>
           bounds <- extrema_slice day find_between ;;
           match bounds with
           | [t0; t1] =>
               subset <- slice_between (BStr t0) (BStr t1) (timeseries self) ;;
               tup <- get_extrema subset which ;;
               match tup with
               | (Some v, Some t) => Ok (PFloat v, PTimestamp t)
               | _ => Ok (PNone, PNone)
               end
           | _ => Raise ValueError
           end
       | [] => Ok (unpack_new_extrema new_extrema)
       end) ;;
    _ <- (if verbose then loc_column (which ++ "_val") else Ok tt) ;;
    set_picks idx extrema value time df.

End WithParsers.

(** ** Clock readings

    [timestamp_to_decimal_hours] and [hour_as_time] work on Python
    floats; as with the mean hours, the numbers are kept as exact
    rationals. *)

(** [Timestamp.minute] and [Timestamp.second]. *)
Definition Timestamp_minute (t : Timestamp) : Z :=
  (t mod ns_per_hour) / ns_per_minute.

Definition Timestamp_second (t : Timestamp) : Z :=
  (t mod ns_per_minute) / ns_per_second.

Definition timestamp_to_decimal_hours (timestamp : Timestamp) : Q :=
  let decimal :=
    Qmake (Timestamp_minute timestamp * 60 + Timestamp_second timestamp)
          (60 * 60) in
  inject_Z (Timestamp_hour timestamp) + decimal.

(** [datetime.timedelta(hours=hrs).seconds]: the duration is rounded to
    the microsecond and normalised, the seconds field lying between 0
    and 86399. *)
Definition timedelta_seconds (hrs : Q) : Z :=
  (Zround_half_even (Qnum hrs * 3600000000) (Zpos (Qden hrs)) / 1000000)
  mod 86400.

(** [hour_as_time]: the two numbers the source prints on either side of
    the colon. *)
Definition hour_as_time (hrs : Q) : Z * Z :=
  let seconds := timedelta_seconds hrs in
  (seconds / 3600, (seconds / 60) mod 60).

(** * Notions used to state the properties *)

(** What rounding to a grid means: the nearest grid point on the given
    side.  A zero grid leaves the timestamp where it is. *)
Definition rounded_up (grid x r : Z) : Prop :=
  (grid = 0 -> r = x) /\ (0 < grid -> (grid | r) /\ x <= r < x + grid).

Definition rounded_down (grid x r : Z) : Prop :=
  (grid = 0 -> r = x) /\ (0 < grid -> (grid | r) /\ x - grid < r <= x).

(** The grid the source derives from a gap between two samples: whole
    minutes, or whole seconds when the minute component is zero. *)
Definition resolution_grid (gap : Timedelta) : Z :=
  if components_minutes gap =? 0
  then components_seconds gap * ns_per_second
  else components_minutes gap * ns_per_minute.

(** The neighbourhood as the specification words it: up to five rows
    before the boundary index, counted from the head of the series when
    there are fewer, and the rows from the boundary up to the fifth
    position after it. *)
Definition neighborhood_claimed (timeseries : Series) (bound_idx : Z)
  : Series :=
  let n := Z.of_nat (List.length timeseries) in
  let a := Z.max 0 (bound_idx - 5) in
  let b := Z.min n (bound_idx + 5) in
  firstn (Z.to_nat (b - a)) (skipn (Z.to_nat a) timeseries).

(** The verdict of the specification's rule, on that neighbourhood. *)
Definition bool_check_claimed (timeseries : Series) (bound : Timestamp)
           (extrema_tup : extremum) (val_type : string) : result bool :=
  _ <- check_input val_type ["min"; "max"]%string ;;
  bound_idx <- get_loc bound timeseries ;;
  let subset := neighborhood_claimed timeseries bound_idx in
  if (List.length subset <? 3)%nat then Ok false
  else
    new_tup <- (if String.eqb val_type "max" then get_max subset
                else get_min subset) ;;
    Ok (_bool_is_same (snd new_tup) (snd extrema_tup)
        || in_tuple (fst new_tup) extrema_tup).

(** A series without NaN, which is what [__init__] leaves in
    [self.timeseries]. *)
Definition nan_free (ts : Series) : Prop := dropna ts = ts.

(** A row [(t, v)] of the series that is the first extreme one under a
    comparison [better]: [v] beats the value of every row before it and
    no row after it beats [v]. *)
Definition first_extreme (better : float -> float -> bool) (ts : Series)
           (v : float) (t : Timestamp) : Prop :=
  exists l1 l2,
    ts = l1 ++ (t, v) :: l2
    /\ (forall p, In p l1 -> better v (snd p) = true)
    /\ (forall p, In p l2 -> better (snd p) v = false).

(** The comparisons of [min]/[idxmin] and of [max]/[idxmax]. *)
Definition below (x y : float) : bool := PrimFloat.ltb x y.
Definition above (x y : float) : bool := PrimFloat.ltb y x.

(** An extremum is either the pair of [None]s or a row of the series. *)
Definition sample_or_nothing (ts : Series) (ext : extremum) : Prop :=
  ext = not_found \/ exists v t, ext = (Some v, Some t) /\ In (t, v) ts.

(** The row the extraction pass appends for a day. *)
Definition row_of (day : Z) (mn mx : extremum) : DailyRecord :=
  {| Date := day;
     min_val := fst mn; min_time := snd mn;
     max_val := fst mx; max_time := snd mx |}.

(** The method [amplitude]: the column [df['max_val'] - df['min_val']]. *)
Definition amplitude_column (df : ResultTable) : list (option float) :=
  map amplitude df.

(** A row with the chosen extremum blanked. *)
Definition blank (which : string) (r : DailyRecord) : DailyRecord :=
  {| Date := Date r;
     min_val := if String.eqb which "max" then min_val r else None;
     min_time := if String.eqb which "max" then min_time r else None;
     max_val := if String.eqb which "min" then max_val r else None;
     max_time := if String.eqb which "min" then max_time r else None |}.

(** What an update of the rows of one day may change. *)
Definition touches_only (idx : Z) (which : string)
           (f : DailyRecord -> DailyRecord) : Prop :=
  forall r,
    Date (f r) = Date r
    /\ (Date r <> idx -> f r = r)
    /\ (which = "max"%string ->
        min_val (f r) = min_val r /\ min_time (f r) = min_time r)
    /\ (which = "min"%string ->
        max_val (f r) = max_val r /\ max_time (f r) = max_time r).

(** An hour of the day. *)
Definition valid_hour (h : Z) : Prop := 0 <= h <= 23.

(** * Sample data *)

(** A stand-in for the string readers of pandas that accepts nothing. *)
Definition no_strings : parsers :=
  {| to_datetime := fun _ => Raise ValueError;
     slice_bound := fun _ _ => Raise KeyError;
     Period_of_str := fun _ => Raise ValueError |}.

Definition at_half_hour (k : Z) : Timestamp := k * (30 * ns_per_minute).

Definition half_hourly (vals : list float) : Series :=
  combine (map (fun k => at_half_hour (Z.of_nat k)) (seq 0 (List.length vals)))
          vals.

(** A half-hourly series with a dip at 02:30 and a rise afterwards. *)
Definition dip : Series :=
  half_hourly [5; 4; 3; 2; 1; 0.5; 3; 4; 6; 7; 8; 9]%float.

Definition dip_day0 : Series := loc_slice 0 (Period_end_time 0) dip.

(** Five samples on the first day, two on the second. *)
Definition sparse_second_day : Series :=
  [ (at_half_hour 0, 3%float); (at_half_hour 1, 1%float);
    (at_half_hour 2, 2%float); (at_half_hour 3, 2.5%float);
    (at_half_hour 4, 3%float);
    (at_half_hour 49, 4%float); (at_half_hour 50, 5%float) ].

(** Sixteen samples a day, ninety minutes apart. *)
Definition ninety_minute_day (d : Z) (vals : list float) : Series :=
  combine (map (fun i => at_half_hour (48 * d + 3 * Z.of_nat i)) (seq 0 16))
          vals.

(** Low at 03:00, high at 21:00. *)
Definition usual_day : list float :=
  [10; 10; 2; 10; 10; 10; 10; 10; 10; 10; 10; 10; 10; 10; 30; 10]%float.

(** A morning that stays at 5 or above and an afternoon at 0 or below. *)
Definition inverted_day : list float :=
  [10; 10; 5; 10; 10; 10; 10; 10; 3; -1; -1; -1; -1; -1; 0; -1]%float.

Definition three_days : Series :=
  ninety_minute_day 0 usual_day ++ ninety_minute_day 1 usual_day
  ++ ninety_minute_day 2 inverted_day.

(** A table of two days: amplitudes 20 and missing. *)
Definition two_day_table : ResultTable :=
  [ {| Date := 0;
       min_val := Some 10%float; min_time := Some (4 * ns_per_hour);
       max_val := Some 30%float; max_time := Some (16 * ns_per_hour) |};
    {| Date := 1;
       min_val := None; min_time := None;
       max_val := Some 30%float; max_time := Some (40 * ns_per_hour) |} ].

(** A half-hourly series that falls to 1 at 01:30, its fourth sample,
    and rises from there on. *)
Definition vee : Series :=
  half_hourly [8; 6; 4; 1; 3; 5; 7; 9; 11; 13; 15; 17]%float.

(** The table extracted from [dip]: one day, low at 02:30, high at
    05:30. *)
Definition dip_table : ResultTable :=
  [ {| Date := 0;
       min_val := Some 0.5%float; min_time := Some (at_half_hour 5);
       max_val := Some 9%float; max_time := Some (at_half_hour 11) |} ].

(** High at 03:00, low at 21:00. *)
Definition evening_low_day : list float :=
  [10; 10; 30; 10; 10; 10; 10; 10; 10; 10; 10; 10; 10; 10; 2; 10]%float.

Definition evening_lows : Series :=
  ninety_minute_day 0 evening_low_day ++ ninety_minute_day 1 evening_low_day
  ++ ninety_minute_day 2 evening_low_day.

(** Case analysis on every comparison of integers in sight. *)
Ltac compare_cases :=
  repeat match goal with
    | H : context [Z.compare ?a ?b] |- _ => destruct (Z.compare_spec a b); subst
    | |- context [Z.compare ?a ?b] => destruct (Z.compare_spec a b); subst
    | H : context [Pos.compare ?a ?b] |- _ =>
        destruct (Pos.compare_spec a b); subst
    | |- context [Pos.compare ?a ?b] => destruct (Pos.compare_spec a b); subst
    end;
  cbn in *; try discriminate; try reflexivity; try lia.

(** Reading a closed instance off the definitions. *)
Ltac by_evaluation := vm_compute; reflexivity.

(** * Properties *)

(** ** Tables built by the extraction pass *)

Lemma unique_from_spec (l seen : list Z) :
  NoDup (unique_from seen l)
  /\ forall x, In x (unique_from seen l) ->
               In x l /\ existsb (Z.eqb x) seen = false.
Proof.
  revert seen. induction l as [|a l IH]; intros seen; simpl.
  - split; [constructor|contradiction].
  - destruct (existsb (Z.eqb a) seen) eqn:E.
    + destruct (IH seen) as [Hnd Hin]. split; [exact Hnd|].
      intros x Hx. apply Hin in Hx. tauto.
    + destruct (IH (a :: seen)) as [Hnd Hin]. split.
      * constructor; [|exact Hnd].
        intros Ha. apply Hin in Ha. destruct Ha as [_ Ha].
        simpl in Ha. rewrite Z.eqb_refl in Ha. discriminate.
      * intros x [Hx|Hx].
        -- subst. auto.
        -- apply Hin in Hx. destruct Hx as [Hx Hs]. split; [auto|].
           simpl in Hs. apply orb_false_iff in Hs. tauto.
Qed.

Lemma unique_NoDup (l : list Z) : NoDup (unique l).
Proof. apply unique_from_spec. Qed.

Lemma NoDup_app_one (l : list Z) (x : Z) :
  NoDup l -> ~ In x l -> NoDup (l ++ [x]).
Proof.
  induction l as [|a l IH]; simpl; intros Hnd Hx.
  - constructor; [intros []|constructor].
  - inversion Hnd; subst. constructor.
    + rewrite in_app_iff. simpl. intuition.
    + apply IH; tauto.
Qed.

(** The rows the loop adds carry distinct days, and each of them has
    passed the consistency check. *)
Lemma extract_loop_invariant (P : parsers) (self : DiurnalExtrema)
      (days : list Z) :
  forall (cache : option (Q * Q)) (vals vals' : list DailyRecord)
         (tp tp' : tape),
    NoDup days ->
    NoDup (map Date vals) ->
    (forall r, In r vals -> ~ In (Date r) days) ->
    Forall (fun r => skip_day (min_val r) (max_val r) = false) vals ->
    extract_loop P self days cache vals tp = Ok (vals', tp') ->
    NoDup (map Date vals')
    /\ Forall (fun r => skip_day (min_val r) (max_val r) = false) vals'.
Proof.
  induction days as [|day rest IH]; intros cache vals vals' tp tp' Hd Hv Hfresh Hok H.
  - simpl in H. unfold ret in H. inversion H. subst. auto.
  - simpl in H. unfold mbind in H.
    destruct (search_day P self cache day tp) as [[[[mn mx] cache'] tp1]|ex];
      [|discriminate].
    inversion Hd as [|? ? Hday Hrest]; subst.
    destruct (skip_day (fst mn) (fst mx)) eqn:Hskip.
    + eapply IH; [exact Hrest| exact Hv | | exact Hok | exact H].
      intros r Hr Hin. apply (Hfresh r Hr). now right.
    + eapply IH; [exact Hrest| | | | exact H].
      * rewrite map_app. simpl. apply NoDup_app_one; [exact Hv|].
        intros Hin. apply in_map_iff in Hin. destruct Hin as [r [Hr1 Hr2]].
        apply (Hfresh r Hr2). left. now symmetry.
      * intros r Hr Hin. apply in_app_iff in Hr. destruct Hr as [Hr|[Hr|[]]].
        -- apply (Hfresh r Hr). now right.
        -- subst r. simpl in Hin. contradiction.
      * apply Forall_app. split; [exact Hok|].
        constructor; [exact Hskip|constructor].
Qed.

Lemma drop_In_table (labels : list Z) (df : ResultTable) (r : DailyRecord) :
  In r (drop labels df) -> In r df.
Proof.
  unfold drop. intros H. now apply filter_In in H.
Qed.

Lemma drop_dates_unique (labels : list Z) (df : ResultTable) :
  NoDup (map Date df) -> NoDup (map Date (drop labels df)).
Proof.
  induction df as [|r df IH]; intros Hnd; [constructor|].
  apply NoDup_cons_iff in Hnd. destruct Hnd as [Hfresh Hnd].
  unfold drop in *. cbn [filter].
  destruct (negb (existsb (Z.eqb (Date r)) labels)); [|now apply IH].
  cbn [map]. apply NoDup_cons_iff. split; [|now apply IH].
  intros Hin. apply Hfresh. apply in_map_iff in Hin.
  destruct Hin as [r' [Hd Hr']]. rewrite <- Hd.
  apply in_map. exact (drop_In_table labels df r' Hr').
Qed.

Lemma apply_threshold_incl (thr : option float) (df : ResultTable) (r : DailyRecord) :
  In r (apply_threshold thr df) -> In r df.
Proof.
  destruct thr as [t|]; simpl; [|auto]. unfold drop. rewrite filter_In. tauto.
Qed.

(** The table the extraction pass returns has one row per day, and
    every row has passed the consistency check. *)
Lemma find_diurnal_extrema_table (P : parsers) (self : DiurnalExtrema)
      (tp tp' : tape) (df : ResultTable) :
  find_diurnal_extrema P self tp = Ok (df, tp') ->
  NoDup (map Date df)
  /\ Forall (fun r => skip_day (min_val r) (max_val r) = false) df.
Proof.
  unfold find_diurnal_extrema, mbind, lift, ret. intros H.
  destruct (extract_loop P self _ None [] tp) as [[vals tp1]|ex] eqn:E;
    [|discriminate].
  destruct (DataFrame_set_index vals) as [df0|ex] eqn:E0; [|discriminate].
  inversion H. subst.
  assert (df0 = vals) as ->.
  { destruct vals; simpl in E0; [discriminate|]. now inversion E0. }
  apply extract_loop_invariant in E.
  - destruct E as [Hnd Hall]. split.
    + destruct (threshold self) as [t|]; simpl; [|exact Hnd].
      now apply drop_dates_unique.
    + apply Forall_forall. intros r Hr. apply apply_threshold_incl in Hr.
      revert r Hr. now apply Forall_forall.
  - apply unique_NoDup.
  - constructor.
  - intros r [].
  - constructor.
Qed.

(** ** The threshold filter *)

Section ThresholdFilter.

Variable thr : float.

Lemma drop_In (labels : list Z) (df : ResultTable) (r : DailyRecord) :
  In r (drop labels df) <-> In r df /\ ~ In (Date r) labels.
Proof.
  unfold drop. rewrite filter_In. split.
  - intros [Hin Hneg]. split; [exact Hin|].
    intros Hl. apply negb_true_iff in Hneg.
    assert (existsb (Z.eqb (Date r)) labels = true) as E.
    { apply existsb_exists. exists (Date r). split; [exact Hl|apply Z.eqb_refl]. }
    congruence.
  - intros [Hin Hnl]. split; [exact Hin|].
    apply negb_true_iff. destruct (existsb _ labels) eqn:E; [|reflexivity].
    apply existsb_exists in E. destruct E as [x [Hx Hxe]].
    apply Z.eqb_eq in Hxe. subst x. contradiction.
Qed.

Lemma labels_below_In (df : ResultTable) (d : Z) :
  In d (labels_below thr df) <->
  exists r, In r df /\ below_threshold thr r = true /\ Date r = d.
Proof.
  unfold labels_below. rewrite in_map_iff. split.
  - intros [r [Hd Hr]]. apply filter_In in Hr. exists r. tauto.
  - intros [r [Hin [Hb Hd]]]. exists r. split; [exact Hd|].
    apply filter_In. tauto.
Qed.

Lemma unique_label (df : ResultTable) (a b : DailyRecord) :
  NoDup (map Date df) -> In a df -> In b df -> Date a = Date b -> a = b.
Proof.
  induction df as [|x df IH]; simpl; intros Hnd Ha Hb Hab; [contradiction|].
  inversion Hnd as [|? ? Hnotin Hnd']; subst.
  destruct Ha as [Ha|Ha], Hb as [Hb|Hb]; subst.
  - reflexivity.
  - exfalso. apply Hnotin. rewrite Hab. now apply in_map.
  - exfalso. apply Hnotin. rewrite <- Hab. now apply in_map.
  - now apply IH.
Qed.

Lemma nothing_bad_left (df : ResultTable) :
  filter (below_threshold thr) (drop (labels_below thr df) df) = [].
Proof.
  destruct (filter _ (drop (labels_below thr df) df)) as [|r l] eqn:E; [reflexivity|].
  assert (In r (filter (below_threshold thr) (drop (labels_below thr df) df))) as Hin
      by (rewrite E; now left).
  apply filter_In in Hin. destruct Hin as [Hin Hb].
  apply drop_In in Hin. destruct Hin as [Hin Hnb].
  exfalso. apply Hnb. apply labels_below_In. exists r. tauto.
Qed.

Lemma drop_nil (df : ResultTable) : drop [] df = df.
Proof.
  unfold drop. induction df as [|r df IH]; [reflexivity|].
  cbn [filter existsb negb]. f_equal. exact IH.
Qed.

Lemma apply_threshold_twice (df : ResultTable) :
  apply_threshold (Some thr) (apply_threshold (Some thr) df)
  = apply_threshold (Some thr) df.
Proof.
  unfold apply_threshold. unfold labels_below at 1.
  rewrite nothing_bad_left. cbn [map]. apply drop_nil.
Qed.

Lemma apply_threshold_filter (df : ResultTable) :
  NoDup (map Date df) ->
  apply_threshold (Some thr) df
  = filter (fun r => negb (below_threshold thr r)) df.
Proof.
  intros Hnd. unfold apply_threshold, drop.
  apply filter_ext_in. intros r Hr. f_equal.
  destruct (below_threshold thr r) eqn:Hb.
  - apply existsb_exists. exists (Date r). split; [|apply Z.eqb_refl].
    apply labels_below_In. exists r. tauto.
  - destruct (existsb _ (labels_below thr df)) eqn:E; [|reflexivity].
    apply existsb_exists in E. destruct E as [d [Hd Hde]].
    apply Z.eqb_eq in Hde. subst d.
    apply labels_below_In in Hd. destruct Hd as [r' [Hr' [Hb' Hd']]].
    assert (r' = r) by (now apply (unique_label df)). subst. congruence.
Qed.

End ThresholdFilter.

Lemma below_threshold_spec (thr : float) (r : DailyRecord) :
  below_threshold thr r = true <->
  exists a b, max_val r = Some a /\ min_val r = Some b
              /\ PrimFloat.ltb (PrimFloat.sub a b) thr = true.
Proof.
  unfold below_threshold, amplitude.
  destruct (max_val r) as [a|], (min_val r) as [b|]; split;
    try discriminate; try (intros [a' [b' [H1 [H2 _]]]]; discriminate).
  - intros H. exists a, b. auto.
  - intros [a' [b' [H1 [H2 H3]]]]. congruence.
Qed.

(** C7. With a threshold configured, [apply_threshold] removes from a
    table with one row per day exactly the days whose amplitude
    [max_val - min_val] is strictly below the threshold, keeps the
    others in order, and applying it a second time with the same
    threshold removes nothing. *)
Theorem apply_threshold_exact_and_idempotent (thr : float) (df : ResultTable) :
  NoDup (map Date df) ->
  apply_threshold (Some thr) df
    = filter (fun r => negb (below_threshold thr r)) df
  /\ (forall r, In r df ->
        (~ In r (apply_threshold (Some thr) df) <->
         exists a b, max_val r = Some a /\ min_val r = Some b
                     /\ PrimFloat.ltb (PrimFloat.sub a b) thr = true))
  /\ apply_threshold (Some thr) (apply_threshold (Some thr) df)
     = apply_threshold (Some thr) df.
Proof.
  intros Hnd. split; [now apply apply_threshold_filter|]. split.
  - intros r Hr. rewrite (apply_threshold_filter thr df Hnd).
    rewrite filter_In, <- below_threshold_spec.
    destruct (below_threshold thr r); simpl; split; intros H.
    + reflexivity.
    + intros [_ H']. discriminate.
    + exfalso. apply H. auto.
    + discriminate.
  - apply apply_threshold_twice.
Qed.

(** C10. A row whose minimum or maximum value is missing is never
    removed by the threshold filter, whatever the threshold. *)
Theorem apply_threshold_keeps_missing
        (thr : float) (df : ResultTable) (r : DailyRecord) :
  NoDup (map Date df) ->
  In r df ->
  min_val r = None \/ max_val r = None ->
  In r (apply_threshold (Some thr) df).
Proof.
  intros Hnd Hr Hmiss. rewrite (apply_threshold_filter thr df Hnd).
  apply filter_In. split; [exact Hr|].
  unfold below_threshold, amplitude.
  destruct Hmiss as [H|H]; rewrite H; [destruct (max_val r)|]; reflexivity.
Qed.

Lemma two_day_table_NoDup : NoDup (map Date two_day_table).
Proof.
  repeat constructor; simpl; intuition discriminate.
Qed.

Lemma apply_threshold_exact_and_idempotent_witness :
  apply_threshold (Some 25%float) two_day_table
    = filter (fun r => negb (below_threshold 25%float r)) two_day_table
  /\ (forall r, In r two_day_table ->
        (~ In r (apply_threshold (Some 25%float) two_day_table) <->
         exists a b, max_val r = Some a /\ min_val r = Some b
                     /\ PrimFloat.ltb (PrimFloat.sub a b) 25%float = true))
  /\ apply_threshold (Some 25%float)
       (apply_threshold (Some 25%float) two_day_table)
     = apply_threshold (Some 25%float) two_day_table.
Proof.
  apply (apply_threshold_exact_and_idempotent 25%float two_day_table).
  exact two_day_table_NoDup.
Defined.

Lemma apply_threshold_keeps_missing_witness :
  In {| Date := 1;
        min_val := None; min_time := None;
        max_val := Some 30%float; max_time := Some (40 * ns_per_hour) |}
     (apply_threshold (Some 25%float) two_day_table).
Proof.
  apply (apply_threshold_keeps_missing 25%float two_day_table).
  - exact two_day_table_NoDup.
  - right. left. reflexivity.
  - left. reflexivity.
Defined.

Example threshold_removes_small_amplitude :
  apply_threshold (Some 25%float) two_day_table
  = [ {| Date := 1;
         min_val := None; min_time := None;
         max_val := Some 30%float; max_time := Some (40 * ns_per_hour) |} ].
Proof. by_evaluation. Qed.

(** ** The boundary validator *)

Lemma _bool_is_same_true (b : Timestamp) (t : option Timestamp) :
  _bool_is_same b t = true <-> t = Some b.
Proof.
  unfold _bool_is_same. destruct t as [t|]; split; intros H; try discriminate.
  - apply Z.eqb_eq in H. now subst.
  - inversion H. apply Z.eqb_refl.
Qed.

Lemma _bool_is_same_false (b : Timestamp) (t : option Timestamp) :
  _bool_is_same b t = false <-> t <> Some b.
Proof.
  rewrite <- _bool_is_same_true. destruct (_bool_is_same b t); split;
    intros H; try discriminate; try reflexivity; try congruence.
Qed.

Lemma find_loc_range (t : Timestamp) (l : list Timestamp) (pos i : Z) :
  find_loc t l pos = Some i -> pos <= i < pos + Z.of_nat (List.length l).
Proof.
  revert pos. induction l as [|x l IH]; intros pos H; simpl in H; [discriminate|].
  cbn [List.length]. rewrite Nat2Z.inj_succ.
  destruct (x =? t).
  - inversion H. lia.
  - apply IH in H. lia.
Qed.

Lemma get_loc_range (t : Timestamp) (ts : Series) (i : Z) :
  get_loc t ts = Ok i -> 0 <= i < Z.of_nat (List.length ts).
Proof.
  unfold get_loc. destruct (find_loc t (index ts) 0) as [j|] eqn:E; [|discriminate].
  intros H. inversion H. subst j. apply find_loc_range in E.
  unfold index in E. rewrite length_map in E. lia.
Qed.

(** Away from the head of the series the run is the five rows before the
    boundary, the boundary row and the four after it, as far as the
    series goes. *)
Lemma neighborhood_centered (ts : Series) (i : Z) :
  5 <= i < Z.of_nat (List.length ts) ->
  neighborhood ts i = firstn 10 (skipn (Z.to_nat (i - 5)) ts).
Proof.
  intros Hi. unfold neighborhood, py_slice.
  set (n := Z.of_nat (List.length ts)) in *.
  assert (py_clip n (i - 5) = i - 5) as ->.
  { unfold py_clip. destruct (i - 5 <? 0) eqn:E.
    - apply Z.ltb_lt in E. lia.
    - lia. }
  assert (py_clip n (i + 5) = Z.min (i + 5) n) as ->.
  { unfold py_clip. destruct (i + 5 <? 0) eqn:E.
    - apply Z.ltb_lt in E. lia.
    - reflexivity. }
  destruct (Z_le_gt_dec (i + 5) n) as [Hle|Hgt].
  - rewrite Z.min_l by lia. f_equal. lia.
  - rewrite Z.min_r by lia.
    assert (List.length (skipn (Z.to_nat (i - 5)) ts) = Z.to_nat (n - (i - 5))) as Hlen.
    { rewrite length_skipn. unfold n. lia. }
    rewrite firstn_all2 by lia.
    rewrite firstn_all2 by lia. reflexivity.
Qed.

Lemma check_edge_events (ts : Series) (w : stamp * stamp)
      (cand : extremum) (mode : string) (e : edge) (b : stamp) (ev : event) :
  In ev (fst (check_edge ts w cand mode e b)) ->
  ev = Examined e \/ ev = Rechecked e.
Proof.
  unfold check_edge. destruct (effective_bound ts w e b) as [b'|ex]; simpl.
  - destruct (_bool_is_same b' (snd cand)); simpl; intuition.
  - intuition.
Qed.

Lemma in_index_In (t : Timestamp) (ts : Series) :
  in_index t ts = true <-> In t (index ts).
Proof.
  unfold in_index. rewrite existsb_exists. split.
  - intros [x [Hx He]]. apply Z.eqb_eq in He. now subst.
  - intros H. exists t. split; [exact H|apply Z.eqb_refl].
Qed.

Lemma find_loc_found (t : Timestamp) (l : list Timestamp) (pos : Z) :
  In t l -> exists i, find_loc t l pos = Some i.
Proof.
  revert pos. induction l as [|x l IH]; intros pos H; [contradiction|].
  simpl. destruct (x =? t) eqn:E.
  - eexists. reflexivity.
  - destruct H as [H|H].
    + subst. rewrite Z.eqb_refl in E. discriminate.
    + now apply IH.
Qed.

Lemma get_index_of_bound_in_index
      (ts : Series) (w : stamp * stamp) (e : edge) (b : Timestamp) :
  get_index_of_bound ts w e = Ok b -> In b (index ts).
Proof.
  unfold get_index_of_bound. cbv zeta.
  set (sub := stamp_slice (fst w) (snd w) ts).
  assert (forall p, In p sub -> In (fst p) (index ts)) as Hsub.
  { intros p Hp. unfold sub, stamp_slice, label_slice in Hp.
    apply filter_In in Hp. unfold index. apply in_map. tauto. }
  destruct e.
  - unfold index_first. destruct sub as [|p r] eqn:E; [discriminate|].
    intros H. inversion H. apply Hsub. now left.
  - unfold index_last. destruct (rev sub) as [|p r] eqn:E; [discriminate|].
    intros H. inversion H. apply Hsub. apply in_rev. rewrite E. now left.
Qed.

(** The bound handed to [bool_check_around_bound] is always a sample, so
    its position is found. *)
Lemma effective_bound_located
      (ts : Series) (w : stamp * stamp) (e : edge) (bound : stamp)
      (b : Timestamp) :
  effective_bound ts w e bound = Ok b -> exists i, get_loc b ts = Ok i.
Proof.
  intros H.
  assert (In b (index ts)) as Hin.
  { unfold effective_bound in H. destruct bound as [t|].
    - cbn [stamp_in_index] in H. destruct (in_index t ts) eqn:E; cbn [negb] in H.
      + inversion H. subst. now apply in_index_In.
      + now apply get_index_of_bound_in_index in H.
    - now apply get_index_of_bound_in_index in H. }
  unfold get_loc. destruct (find_loc_found b (index ts) 0 Hin) as [i Hi].
  exists i. now rewrite Hi.
Qed.

(** On an edge whose effective bound is the candidate's timestamp the
    verdict of the edge is that of [bool_check_around_bound]. *)
Lemma check_edge_on_boundary
      (ts : Series) (w : stamp * stamp) (cand : extremum) (mode : string)
      (e : edge) (bound : stamp) (b : Timestamp) :
  effective_bound ts w e bound = Ok b ->
  snd cand = Some b ->
  check_edge ts w cand mode e bound
  = ([Examined e; Rechecked e], bool_check_around_bound ts b cand mode).
Proof.
  intros H Hc. unfold check_edge. rewrite H.
  apply _bool_is_same_true in Hc. now rewrite Hc.
Qed.

(** Away from the head of the series the code examines the rows the
    specification describes, and gives its verdict. *)
Lemma neighborhood_away_from_head (ts : Series) (i : Z) :
  5 <= i < Z.of_nat (List.length ts) ->
  neighborhood ts i = neighborhood_claimed ts i.
Proof.
  intros Hi. unfold neighborhood, neighborhood_claimed, py_slice, py_clip.
  cbv zeta.
  assert ((i - 5 <? 0) = false) as -> by (apply Z.ltb_ge; lia).
  assert ((i + 5 <? 0) = false) as -> by (apply Z.ltb_ge; lia).
  rewrite (Z.min_l (i - 5)) by lia. rewrite (Z.max_r 0) by lia.
  rewrite (Z.min_comm (i + 5)). reflexivity.
Qed.

Lemma bool_check_around_bound_away_from_head
      (ts : Series) (bound : Timestamp) (cand : extremum) (mode : string)
      (i : Z) :
  get_loc bound ts = Ok i ->
  5 <= i ->
  bool_check_around_bound ts bound cand mode
  = bool_check_claimed ts bound cand mode.
Proof.
  intros Hloc Hi. pose proof (get_loc_range bound ts i Hloc) as Hr.
  unfold bool_check_around_bound, bool_check_claimed.
  destruct (check_input mode _); [|reflexivity]. cbn [rbind].
  rewrite Hloc. cbn [rbind].
  rewrite neighborhood_away_from_head by lia. reflexivity.
Qed.

(** C4. The neighbourhood is not the rows within five positions of the
    boundary index when that index is below 5.  In [vee] the minimum 1
    sits at row 3; a window starting there puts it on the start edge.
    The rows the specification describes are rows 0 to 7, eight rows
    whose minimum is that very sample, so its rule accepts the
    candidate.  The code slices [timeseries[-2:8]]: the negative start
    counts from the end of the series, the slice is empty, and the
    candidate is rejected as an artifact; the search of that window
    returns [(None, None)]. *)
Theorem bool_check_around_bound_loses_minimum_near_head :
  get_loc (at_half_hour 3) vee = Ok 3
  /\ neighborhood_claimed vee 3 = firstn 8 vee
  /\ get_min (neighborhood_claimed vee 3) = Ok (1%float, at_half_hour 3)
  /\ bool_check_claimed vee (at_half_hour 3)
       (Some 1%float, Some (at_half_hour 3)) "min" = Ok true
  /\ neighborhood vee 3 = []
  /\ bool_check_around_bound vee (at_half_hour 3)
       (Some 1%float, Some (at_half_hour 3)) "min" = Ok false
  /\ get_extrema
       (loc_slice (at_half_hour 3) (at_half_hour 11) vee) "min"
     = Ok (Some 1%float, Some (at_half_hour 3))
  /\ get_real_extrema no_strings vee
       (WSeq [BTimestamp (at_half_hour 3); BTimestamp (at_half_hour 11)])
       "min" []
     = Ok (not_found, []).
Proof. repeat split; by_evaluation. Qed.

(** C5. A candidate whose timestamp is neither edge's effective bound is
    accepted and [bool_check_around_bound] is not called; and the end
    edge is examined only when the start edge has been found
    acceptable. *)
Theorem on_boundary_interior_and_short_circuit
        (ts : Series) (w : stamp * stamp) (cand : extremum)
        (mode : string) :
  (forall b0 b1,
      effective_bound ts w EStart (fst w) = Ok b0 ->
      effective_bound ts w EEnd (snd w) = Ok b1 ->
      snd cand <> Some b0 ->
      snd cand <> Some b1 ->
      on_boundary ts w cand mode = Ok true
      /\ forall e, ~ In (Rechecked e) (fst (on_boundary_run ts w cand mode)))
  /\ (In (Examined EEnd) (fst (on_boundary_run ts w cand mode)) ->
      snd (check_edge ts w cand mode EStart (fst w)) = Ok true).
Proof.
  split.
  - intros b0 b1 H0 H1 Hn0 Hn1.
    apply _bool_is_same_false in Hn0. apply _bool_is_same_false in Hn1.
    unfold on_boundary, on_boundary_run, check_edge.
    rewrite H0, Hn0, H1, Hn1. cbn. split; [reflexivity|].
    intros e [H|[H|[]]]; discriminate.
  - unfold on_boundary_run.
    destruct (check_edge ts w cand mode EStart (fst w)) as [tr1 r1] eqn:E.
    assert (forall ev, In ev tr1 -> ev = Examined EStart \/ ev = Rechecked EStart)
      as Hev.
    { intros ev Hin. apply (check_edge_events ts w cand mode EStart (fst w)).
      now rewrite E. }
    destruct r1 as [[|]|ex]; cbn [fst snd].
    + reflexivity.
    + intros Hin. apply Hev in Hin. destruct Hin; discriminate.
    + intros Hin. apply Hev in Hin. destruct Hin; discriminate.
Qed.

Example dip_minimum_on_edge_accepted :
  bool_check_around_bound dip (at_half_hour 5)
    (Some 0.5%float, Some (at_half_hour 5)) "min" = Ok true.
Proof. by_evaluation. Qed.

(** The last sample of a window that stops on a rising ramp is the
    window maximum, and is rejected: the rows around it go higher. *)
Example ramp_endpoint_rejected :
  get_max (loc_slice (at_half_hour 6) (at_half_hour 9) dip)
    = Ok (7%float, at_half_hour 9)
  /\ on_boundary dip (At (at_half_hour 6), At (at_half_hour 9))
       (Some 7%float, Some (at_half_hour 9)) "max" = Ok false.
Proof. split; by_evaluation. Qed.

(** Within five rows of the head of a series of ten or more, the
    negative start of the positional slice wraps around and no row is
    looked at. *)
Example neighborhood_near_head_is_empty : neighborhood dip 2 = [].
Proof. by_evaluation. Qed.

Lemma on_boundary_interior_and_short_circuit_witness :
  on_boundary dip (At (at_half_hour 1), At (at_half_hour 8))
    (Some 0.5%float, Some (at_half_hour 5)) "min" = Ok true
  /\ forall e,
      ~ In (Rechecked e)
           (fst (on_boundary_run dip (At (at_half_hour 1), At (at_half_hour 8))
                   (Some 0.5%float, Some (at_half_hour 5)) "min")).
Proof.
  apply (proj1
           (on_boundary_interior_and_short_circuit dip
              (At (at_half_hour 1), At (at_half_hour 8))
              (Some 0.5%float, Some (at_half_hour 5)) "min")
           (at_half_hour 1) (at_half_hour 8)).
  - vm_compute. reflexivity.
  - vm_compute. reflexivity.
  - vm_compute. discriminate.
  - vm_compute. discriminate.
Defined.

Example start_edge_failure_stops_the_loop :
  on_boundary_run dip (At (at_half_hour 6), At (at_half_hour 11))
    (Some 3%float, Some (at_half_hour 6)) "min"
  = ([Examined EStart; Rechecked EStart], Ok false).
Proof. by_evaluation. Qed.

(** ** The window resolver *)

Lemma freq_nanos_window_res (gap : Timedelta) :
  freq_nanos (window_res gap) = resolution_grid gap.
Proof.
  unfold window_res, resolution_grid.
  destruct (components_minutes gap =? 0); reflexivity.
Qed.

Lemma Timestamp_ceil_rounded_up (t : Timestamp) (f : freq) :
  rounded_up (freq_nanos f) t (Timestamp_ceil t f).
Proof.
  unfold rounded_up, Timestamp_ceil, np_remainder.
  set (g := freq_nanos f). split.
  - intros ->. simpl. lia.
  - intros Hg. assert ((g =? 0) = false) as -> by (apply Z.eqb_neq; lia).
    pose proof (Z.mod_pos_bound (- t) g Hg) as Hb.
    pose proof (Z.div_mod (- t) g ltac:(lia)) as Hd.
    split; [|lia].
    exists (- (- t / g)). lia.
Qed.

Lemma Timestamp_floor_rounded_down (t : Timestamp) (f : freq) :
  rounded_down (freq_nanos f) t (Timestamp_floor t f).
Proof.
  unfold rounded_down, Timestamp_floor, np_remainder.
  set (g := freq_nanos f). split.
  - intros ->. simpl. lia.
  - intros Hg. assert ((g =? 0) = false) as -> by (apply Z.eqb_neq; lia).
    pose proof (Z.mod_pos_bound t g Hg) as Hb.
    pose proof (Z.div_mod t g ltac:(lia)) as Hd.
    split; [|lia].
    exists (t / g). lia.
Qed.

Lemma randint_range (lo hi : Z) (tp : tape) :
  lo <= hi ->
  exists i tp', randint lo hi tp = Ok (i, tp') /\ lo <= i <= hi.
Proof.
  intros H. destruct tp as [|x tp']; simpl.
  - exists lo, []. split; [reflexivity|lia].
  - exists (lo + Z.of_nat x mod (hi - lo + 1)), tp'. split; [reflexivity|].
    pose proof (Z.mod_pos_bound (Z.of_nat x) (hi - lo + 1) ltac:(lia)). lia.
Qed.

(** Each of the four accepted forms of specification yields raw
    timestamp bounds. *)
Lemma raw_bounds_accepted_forms (P : parsers) (ts : Series) :
  (forall day,
      raw_bounds P (WPeriod day) ts
      = Ok (BTimestamp (Period_start_time day),
            BTimestamp (Period_end_time day)))
  /\ (forall n p rest,
        ts = p :: rest ->
        raw_bounds P (WInt n) ts
        = Ok (BTimestamp (fst p),
              BTimestamp (make_end_of_day (fst p + Timedelta_days n))))
  /\ (forall s e,
        s < e ->
        raw_bounds P (WSeq [BTimestamp s; BTimestamp e]) ts
        = Ok (BTimestamp s, BTimestamp e))
  /\ (forall a b s e,
        a <> "first"%string -> b <> "last"%string ->
        to_datetime P a = Ok s -> to_datetime P b = Ok e ->
        raw_bounds P (WSeq [BStr a; BStr b]) ts
        = Ok (BTimestamp s, BTimestamp (make_end_of_day e))).
Proof.
  split; [reflexivity|]. split; [|split].
  - intros n p rest ->. reflexivity.
  - intros s e H. simpl. apply Z.ltb_lt in H. now rewrite H.
  - intros a b s e Ha Hb Hs He. simpl.
    apply String.eqb_neq in Ha. apply String.eqb_neq in Hb.
    rewrite Ha, Hb, Hs, He. reflexivity.
Qed.

(** C6. Once the window specification has given raw timestamp bounds:
    with fewer than three samples between them the resolver returns
    [None]; otherwise it returns the raw start rounded up and the raw
    end rounded down to the grid read off one pair of adjacent samples
    of the slice, whole minutes or, when the minute component of their
    gap is zero, whole seconds. *)
Theorem to_exact_indexing_resolution
        (P : parsers) (w : Window) (ts : Series) (tp : tape)
        (s e : Timestamp) :
  raw_bounds P w ts = Ok (BTimestamp s, BTimestamp e) ->
  let subset := loc_slice s e ts in
  ((List.length subset < 3)%nat ->
   to_exact_indexing P w ts tp = Ok (None, tp))
  /\ ((3 <= List.length subset)%nat ->
      exists (idx : nat) (tp' : tape) (s' e' : Timestamp),
        (1 <= idx < List.length subset)%nat
        /\ to_exact_indexing P w ts tp = Ok (Some (At s', At e'), tp')
        /\ let gap :=
             nth idx (index subset) 0 - nth (idx - 1) (index subset) 0 in
           rounded_up (resolution_grid gap) s s'
           /\ rounded_down (resolution_grid gap) e e').
Proof.
  intros Hraw subset.
  assert (forall tp0,
             to_exact_indexing P w ts tp0
             = match_resolution P (BTimestamp s) (BTimestamp e) ts tp0) as Hstep.
  { intros tp0. unfold to_exact_indexing, mbind, lift. now rewrite Hraw. }
  split.
  - intros Hlt. rewrite Hstep. unfold match_resolution, mbind, lift.
    cbn [slice_between slice_label rbind]. fold (loc_slice s e ts). fold subset.
    assert ((2 <? List.length subset)%nat = false) as ->
        by (apply Nat.ltb_ge; lia).
    rewrite andb_false_r. reflexivity.
  - intros Hge. rewrite Hstep. unfold match_resolution, mbind, lift.
    cbn [slice_between slice_label rbind]. fold (loc_slice s e ts). fold subset.
    assert ((2 <? List.length subset)%nat = true) as ->
        by (apply Nat.ltb_lt; lia).
    assert (Nat.eqb (List.length subset) 0 = false) as ->
        by (apply Nat.eqb_neq; lia).
    cbn [negb andb].
    destruct (randint_range 1 (Z.of_nat (List.length subset) - 1) tp)
      as [i [tp' [Hr Hi]]]; [lia|].
    rewrite Hr. cbn [bound_ceil bound_floor ret].
    exists (Z.to_nat i), tp'.
    eexists. eexists. split; [lia|]. split; [reflexivity|].
    replace (Z.to_nat i - 1)%nat with (Z.to_nat (i - 1)) by lia.
    cbv zeta. rewrite <- freq_nanos_window_res. split.
    + apply Timestamp_ceil_rounded_up.
    + apply Timestamp_floor_rounded_down.
Qed.

Lemma to_exact_indexing_resolution_witness :
  exists (idx : nat) (tp' : tape) (s' e' : Timestamp),
    (1 <= idx < List.length dip_day0)%nat
    /\ to_exact_indexing no_strings (WPeriod 0) dip [3%nat]
       = Ok (Some (At s', At e'), tp')
    /\ let gap :=
         nth idx (index dip_day0) 0 - nth (idx - 1) (index dip_day0) 0 in
       rounded_up (resolution_grid gap) 0 s'
       /\ rounded_down (resolution_grid gap) (Period_end_time 0) e'.
Proof.
  apply (proj2
           (to_exact_indexing_resolution no_strings (WPeriod 0) dip [3%nat]
              0 (Period_end_time 0) eq_refl)).
  vm_compute. lia.
Defined.

Example day_window_of_half_hourly_series :
  to_exact_indexing no_strings (WPeriod 0) dip [3%nat]
  = Ok (Some (At 0, At (at_half_hour 47)), []).
Proof. by_evaluation. Qed.

Example sparse_day_has_no_window :
  to_exact_indexing no_strings (WPeriod 0)
    [(at_half_hour 1, 1%float); (at_half_hour 2, 2%float)] [3%nat]
  = Ok (None, [3%nat]).
Proof. by_evaluation. Qed.

(** A mixed pair of bounds passes the type dispatch untouched: the call
    of [start_before_end] sits under the test that both are
    timestamps. *)
Lemma raw_bounds_mixed_pair (P : parsers) (ts : Series) (a b : bound) :
  match a, b with
  | BTimestamp _, BTimestamp _ => False
  | BStr _, BStr _ => False
  | _, _ => True
  end ->
  raw_bounds P (WSeq [a; b]) ts = Ok (a, b).
Proof.
  destruct a, b; simpl; intros H; try contradiction; reflexivity.
Qed.

Lemma to_exact_indexing_inverted_pair
      (P : parsers) (ts : Series) (tp : tape) (s e : Timestamp) :
  e <= s ->
  to_exact_indexing P (WSeq [BTimestamp s; BTimestamp e]) ts tp
  = Raise ValueError.
Proof.
  intros H. unfold to_exact_indexing, mbind, lift. simpl.
  assert ((s <? e) = false) as -> by (apply Z.ltb_ge; lia). reflexivity.
Qed.

Lemma to_exact_indexing_bad_length
      (P : parsers) (ts : Series) (tp : tape) (items : list bound) :
  List.length items <> 2%nat ->
  to_exact_indexing P (WSeq items) ts tp = Raise ValueError.
Proof.
  intros H. unfold to_exact_indexing, mbind, lift, raw_bounds, check_length.
  cbn [existsb]. destruct (Nat.eqb (List.length items) 2) eqn:E.
  - apply Nat.eqb_eq in E. contradiction.
  - reflexivity.
Qed.

(** C9. What the resolver does with a pair that mixes a timestamp with
    another kind of bound: the pair is not validated.  With a timestamp
    and [None] over a series of two samples it returns [None] and raises
    nothing, although [start_before_end] on the same pair raises
    [TypeError]; a window object of an unsupported type ends in
    [UnboundLocalError]. *)
Theorem to_exact_indexing_mixed_pair_not_rejected
        (P : parsers) (tp : tape) (s : Timestamp) (x y : float) :
  raw_bounds P (WSeq [BTimestamp s; BNone]) [(s, x); (s + 1, y)]
    = Ok (BTimestamp s, BNone)
  /\ to_exact_indexing P (WSeq [BTimestamp s; BNone]) [(s, x); (s + 1, y)] tp
     = Ok (None, tp)
  /\ start_before_end (BTimestamp s) BNone = Raise TypeError
  /\ to_exact_indexing P WOther [(s, x); (s + 1, y)] tp
     = Raise UnboundLocalError.
Proof.
  split; [reflexivity|]. split; [|split; reflexivity].
  unfold to_exact_indexing, mbind, lift. cbn [raw_bounds check_length
    List.length existsb Nat.eqb orb rbind].
  unfold match_resolution, mbind, lift. cbn [slice_between slice_label rbind].
  unfold label_slice. cbn [filter fst].
  destruct (s <=? s); destruct (s <=? s + 1); reflexivity.
Qed.

(** ** The manual override *)

(** C2. Given a (value, time) tuple for the maximum, the method binds
    [value] to the whole tuple and [time] to [None]; the assignment of
    the tuple to the single cell is refused, so the call ends in
    [ValueError] and no field takes the requested value. *)
Theorem change_extrema_picks_tuple_not_unpacked
        (P : parsers) (self : DiurnalExtrema) (df : ResultTable)
        (d : Z) (v : float) (t : Timestamp) (verbose : bool) :
  unpack_new_extrema (PTuple (PFloat v) (PTimestamp t))
    = (PTuple (PFloat v) (PTimestamp t), PNone)
  /\ change_extrema_picks P self df (DayPeriod d) "max"
       (PTuple (PFloat v) (PTimestamp t)) [] verbose
     = Raise ValueError.
Proof.
  split; [reflexivity|].
  unfold change_extrema_picks. cbn [check_input existsb String.eqb Ascii.eqb
    Bool.eqb orb rbind Period_of].
  destruct (negb (existsb (Z.eqb d) (map Date df))); [reflexivity|].
  destruct verbose; reflexivity.
Qed.

Example override_of_day_one_maximum :
  change_extrema_picks no_strings
    (init dip true true false (WInt 4) None) two_day_table
    (DayPeriod 1) "max"
    (PTuple (PFloat 33.5%float) (PTimestamp (at_half_hour 80))) [] false
  = Raise ValueError.
Proof. by_evaluation. Qed.

(** Without a tuple both bindings are [None] and the fields are
    blanked. *)
Example override_without_tuple_blanks_the_maximum :
  change_extrema_picks no_strings
    (init dip true true false (WInt 4) None) two_day_table
    (DayPeriod 0) "max" PNone [] false
  = Ok [ {| Date := 0;
            min_val := Some 10%float; min_time := Some (4 * ns_per_hour);
            max_val := None; max_time := None |};
         {| Date := 1;
            min_val := None; min_time := None;
            max_val := Some 30%float; max_time := Some (40 * ns_per_hour) |} ].
Proof. by_evaluation. Qed.

(** ** The extraction pass *)

(** The window built from a minimum that was not found is [(None, NaT)]:
    it is not validated, its slice is the whole series, and with three
    samples or more the resolver asks [None] to round itself. *)
Lemma label_slice_open (ts : Series) : label_slice LOpen LNaT ts = ts.
Proof.
  unfold label_slice. induction ts as [|p ts IH]; [reflexivity|].
  cbn. apply f_equal. exact IH.
Qed.

Lemma to_exact_indexing_after_missing_minimum
      (P : parsers) (ts : Series) (tp : tape) :
  ((3 <= List.length ts)%nat ->
   to_exact_indexing P (window_after None) ts tp = Raise AttributeError)
  /\ ((List.length ts < 3)%nat ->
      to_exact_indexing P (window_after None) ts tp = Ok (None, tp)).
Proof.
  unfold to_exact_indexing, mbind, lift, window_after.
  cbn [raw_bounds check_length List.length existsb Nat.eqb orb rbind].
  unfold match_resolution, mbind, lift.
  cbn [slice_between slice_label rbind]. rewrite label_slice_open.
  split; intros H.
  - assert ((2 <? List.length ts)%nat = true) as ->
        by (apply Nat.ltb_lt; lia).
    assert (Nat.eqb (List.length ts) 0 = false) as ->
        by (apply Nat.eqb_neq; lia).
    cbn [negb andb].
    destruct (randint_range 1 (Z.of_nat (List.length ts) - 1) tp)
      as [i [tp' [Hr _]]]; [lia|].
    rewrite Hr. reflexivity.
  - assert ((2 <? List.length ts)%nat = false) as ->
        by (apply Nat.ltb_ge; lia).
    rewrite andb_false_r. reflexivity.
Qed.

(** With minimum-first and maximum-next-day, a day whose minimum was not
    found stops the extraction as soon as the series has three
    samples. *)
Lemma search_day_minimum_not_found
      (P : parsers) (self : DiurnalExtrema) (cache : option (Q * Q))
      (day : Z) (tp tp' : tape) :
  predictTiming self = false ->
  minfirst self = true ->
  maxnextday self = true ->
  (3 <= List.length (timeseries self))%nat ->
  get_real_extrema P (timeseries self) (WPeriod day) "min" tp
    = Ok (not_found, tp') ->
  search_day P self cache day tp = Raise AttributeError.
Proof.
  intros Hp Hf Hn Hlen Hmin. unfold search_day, mbind.
  rewrite Hp, Hmin, Hf, Hn. cbn [not_found andb].
  unfold get_real_extrema, mbind, lift. cbn [check_input existsb String.eqb
    Ascii.eqb Bool.eqb orb].
  now rewrite (proj1 (to_exact_indexing_after_missing_minimum P _ tp') Hlen).
Qed.

(** C3. With the default ordering policy, a day whose minimum search
    finds nothing makes the whole extraction raise [AttributeError]:
    the first day of [sparse_second_day] is searched without error, the
    second has too few samples for a window, and the search for its
    maximum fails. *)
Theorem find_diurnal_extrema_raises_on_missing_minimum :
  search_day no_strings
    (init sparse_second_day true true false (WInt 4) None) None 0 []
    = Ok ((Some 1%float, Some (at_half_hour 1)), not_found, None, [])
  /\ get_real_extrema no_strings sparse_second_day (WPeriod 1) "min" []
     = Ok (not_found, [])
  /\ find_diurnal_extrema no_strings
       (init sparse_second_day true true false (WInt 4) None) []
     = Raise AttributeError.
Proof. repeat split; by_evaluation. Qed.

(** The same series is processed to the end when the maximum is searched
    in the day itself. *)
Example same_day_maximum_tolerates_missing_minimum :
  find_diurnal_extrema no_strings
    (init sparse_second_day false true false (WInt 4) None) []
  = Ok ([ {| Date := 0;
             min_val := Some 1%float; min_time := Some (at_half_hour 1);
             max_val := Some 3%float; max_time := Some (at_half_hour 0) |};
          {| Date := 1;
             min_val := None; min_time := None;
             max_val := None; max_time := None |} ], []).
Proof. by_evaluation. Qed.

(** ** The occurrence predictor *)

Lemma predict_extrema_no_data
      (P : parsers) (self : DiurnalExtrema) (tp tp' : tape) :
  to_exact_indexing P (window self) (timeseries self) tp = Ok (None, tp') ->
  predict_extrema P self tp = Raise TypeError.
Proof.
  intros H. unfold predict_extrema, mbind. rewrite H. reflexivity.
Qed.

(** C8. When the calibration window resolves to no data, unpacking the
    [None] raises [TypeError]; the [ValueError] written for an invalid
    calibration range is not the error raised. *)
Theorem predict_extrema_no_data_is_type_error :
  to_exact_indexing no_strings (WInt 4)
    [(at_half_hour 0, 3%float); (at_half_hour 1, 1%float)] []
    = Ok (None, [])
  /\ predict_extrema no_strings
       (init [(at_half_hour 0, 3%float); (at_half_hour 1, 1%float)]
             true true true (WInt 4) None) []
     = Raise TypeError.
Proof. split; by_evaluation. Qed.

Example mean_occurance_rounds_to_thousandths :
  mean_occurance [4; 4; 5] = Ok (Qmake 4333 1000).
Proof. by_evaluation. Qed.

(** A day of the calibration window whose extremum is not found stops
    the predictor: [None] has no [round]. *)
Example predict_extrema_needs_every_extremum :
  predict_extrema no_strings
    (init sparse_second_day true true true (WInt 4) None) []
  = Raise AttributeError.
Proof. by_evaluation. Qed.

(** ** The consistency check of the extraction pass *)

(** The check reads the two values through Python truth: a value of
    zero counts as absent, and the day is kept whatever the other value
    is. *)
Lemma skip_day_zero_maximum (minVal : option float) :
  skip_day minVal (Some 0%float) = false.
Proof. reflexivity. Qed.

Lemma skip_day_zero_minimum (maxVal : option float) :
  skip_day (Some 0%float) maxVal = false.
Proof.
  unfold skip_day. destruct (val_truthy maxVal); reflexivity.
Qed.

(** C1. In predictive mode, calibrated on the first two days of
    [three_days], the third day is searched for its minimum around
    03:00 and for its maximum around 21:00: the minimum found is 5, the
    maximum found is 0, and the day is kept in the table with its
    minimum above its maximum. *)
Theorem find_diurnal_extrema_keeps_day_with_min_above_max :
  find_diurnal_extrema no_strings
    (init three_days true true true (WInt 1) None) []
  = Ok ([ {| Date := 0;
             min_val := Some 2%float; min_time := Some (at_half_hour 6);
             max_val := Some 30%float; max_time := Some (at_half_hour 42) |};
          {| Date := 1;
             min_val := Some 2%float; min_time := Some (at_half_hour 54);
             max_val := Some 30%float; max_time := Some (at_half_hour 90) |};
          {| Date := 2;
             min_val := Some 5%float; min_time := Some (at_half_hour 102);
             max_val := Some 0%float; max_time := Some (at_half_hour 138) |} ],
        [])
  /\ val_gt (Some 5%float) (Some 0%float) = true
  /\ skip_day (Some 5%float) (Some 0%float) = false.
Proof. repeat split; by_evaluation. Qed.

(** With a maximum of 1 in place of 0 the same day is discarded. *)
Example nonzero_maximum_is_discarded :
  skip_day (Some 5%float) (Some 1%float) = true.
Proof. by_evaluation. Qed.

(** * Further properties *)

(** ** The end of a day *)

Lemma ns_per_day_seconds : ns_per_day = 86400 * ns_per_second.
Proof. reflexivity. Qed.

Lemma make_end_of_day_parts (t : Timestamp) :
  exists q m,
    q = t / ns_per_day /\ m = t mod ns_per_second
    /\ 0 <= m < ns_per_second
    /\ make_end_of_day t = q * ns_per_day + (86399 * ns_per_second + m)
    /\ t <= q * ns_per_day + (86399 * ns_per_second + m).
Proof.
  exists (t / ns_per_day), (t mod ns_per_second).
  assert (0 < ns_per_second) as HS by reflexivity.
  assert (0 < ns_per_day) as HD by reflexivity.
  pose proof (Z.mod_pos_bound t ns_per_second HS) as Hm.
  pose proof (Z.div_mod t ns_per_day ltac:(lia)) as Ht.
  pose proof (Z.mod_pos_bound t ns_per_day HD) as Hr.
  repeat split; try lia.
  - unfold make_end_of_day. change (23 * 3600 + 59 * 60 + 59) with 86399. lia.
  - set (r := t mod ns_per_day) in *.
    assert (t mod ns_per_second = r mod ns_per_second) as Hrm.
    { unfold r. symmetry. apply Z.mod_mod_divide.
      exists 86400. apply ns_per_day_seconds. }
    pose proof (Z.div_mod r ns_per_second ltac:(lia)) as Hr2.
    assert (r / ns_per_second < 86400) as Hq.
    { apply Z.div_lt_upper_bound; [lia|]. rewrite ns_per_day_seconds in Hr. lia. }
    rewrite Hrm.
    pose proof (Z.mod_pos_bound r ns_per_second HS) as Hm2.
    nia.
Qed.

Lemma to_period_D_make_end_of_day (t : Timestamp) :
  to_period_D (make_end_of_day t) = to_period_D t.
Proof.
  destruct (make_end_of_day_parts t) as [q [m [Hq [Hm [Hmb [He _]]]]]].
  unfold to_period_D. rewrite He, <- Hq.
  symmetry. apply (Z.div_unique _ _ q (86399 * ns_per_second + m)).
  - left. rewrite ns_per_day_seconds. lia.
  - lia.
Qed.

(** X1. [make_end_of_day] moves a timestamp to the last second of its
    own calendar day: the day is kept, the time of day becomes 23:59:59,
    the part below the second is kept, the result is never earlier than
    the timestamp nor later than the end of the day, and a second
    application changes nothing. *)
Theorem make_end_of_day_same_day_last_second (t : Timestamp) :
  to_period_D (make_end_of_day t) = to_period_D t
  /\ t <= make_end_of_day t <= Period_end_time (to_period_D t)
  /\ (make_end_of_day t mod ns_per_day) / ns_per_second = 86399
  /\ make_end_of_day t mod ns_per_second = t mod ns_per_second
  /\ make_end_of_day (make_end_of_day t) = make_end_of_day t.
Proof.
  destruct (make_end_of_day_parts t) as [q [m [Hq [Hm [Hmb [He Hle]]]]]].
  assert (0 < ns_per_second) as HS by reflexivity.
  assert (make_end_of_day t mod ns_per_day = 86399 * ns_per_second + m) as Hmod.
  { rewrite He. symmetry.
    apply (Z.mod_unique _ _ q).
    - left. rewrite ns_per_day_seconds. lia.
    - lia. }
  assert (make_end_of_day t mod ns_per_second = m) as Hsub.
  { rewrite He. symmetry.
    apply (Z.mod_unique _ _ (q * 86400 + 86399)).
    - left. lia.
    - rewrite ns_per_day_seconds. lia. }
  split; [apply to_period_D_make_end_of_day|]. split; [|split; [|split]].
  - split; [lia|]. unfold Period_end_time, to_period_D. rewrite <- Hq, He.
    rewrite ns_per_day_seconds. lia.
  - rewrite Hmod. symmetry. apply (Z.div_unique _ _ _ m); [left|]; lia.
  - lia.
  - unfold make_end_of_day at 1.
    fold (to_period_D (make_end_of_day t)).
    rewrite to_period_D_make_end_of_day, Hsub.
    unfold make_end_of_day, to_period_D. lia.
Qed.

(** ** The extremum locator *)

Lemma first_best_In (better : float -> float -> bool)
      (best : Timestamp * float) (l : Series) :
  In (first_best better best l) (best :: l).
Proof.
  revert best. induction l as [|p r IH]; intros best; [now left|].
  cbn [first_best]. destruct (better (snd p) (snd best)).
  - right. apply IH.
  - destruct (IH best) as [H|H]; [now left|right; now right].
Qed.

Lemma get_min_In (ts : Series) (v : float) (t : Timestamp) :
  get_min ts = Ok (v, t) -> In (t, v) ts.
Proof.
  destruct ts as [|p r]; [discriminate|]. unfold get_min. intros H.
  inversion H. rewrite <- surjective_pairing. apply first_best_In.
Qed.

Lemma get_max_In (ts : Series) (v : float) (t : Timestamp) :
  get_max ts = Ok (v, t) -> In (t, v) ts.
Proof.
  destruct ts as [|p r]; [discriminate|]. unfold get_max. intros H.
  inversion H. rewrite <- surjective_pairing. apply first_best_In.
Qed.

Lemma check_input_ok (value : string) (args : list string) :
  check_input value args = Ok tt <-> In value args.
Proof.
  unfold check_input. destruct (existsb (String.eqb value) args) eqn:E.
  - split; [intros _|reflexivity]. apply existsb_exists in E.
    destruct E as [x [Hx He]]. apply String.eqb_eq in He. now subst.
  - split; [discriminate|]. intros H. exfalso.
    assert (existsb (String.eqb value) args = true) as E'.
    { apply existsb_exists. exists value. split; [exact H|apply String.eqb_refl]. }
    congruence.
Qed.

Lemma check_input_raise (value : string) (args : list string) :
  ~ In value args -> check_input value args = Raise ValueError.
Proof.
  intros H. unfold check_input.
  destruct (existsb (String.eqb value) args) eqn:E; [|reflexivity].
  exfalso. apply H. apply existsb_exists in E.
  destruct E as [x [Hx He]]. apply String.eqb_eq in He. now subst.
Qed.

Lemma get_extrema_shape (ts : Series) (mode : string) (ext : extremum) :
  get_extrema ts mode = Ok ext ->
  exists v t, ext = (Some v, Some t) /\ In (t, v) ts.
Proof.
  unfold get_extrema. destruct (check_input mode _); [|discriminate].
  cbn [rbind]. destruct (String.eqb mode "max").
  - destruct (get_max ts) as [[v t]|ex] eqn:E; [|discriminate].
    cbn [rbind fst snd]. intros H. inversion H. exists v, t.
    split; [reflexivity|now apply get_max_In].
  - destruct (get_min ts) as [[v t]|ex] eqn:E; [|discriminate].
    cbn [rbind fst snd]. intros H. inversion H. exists v, t.
    split; [reflexivity|now apply get_min_In].
Qed.

Lemma nan_free_In (ts : Series) (p : Timestamp * float) :
  nan_free ts -> In p ts -> is_nan (snd p) = false.
Proof.
  unfold nan_free, dropna. intros H Hin. rewrite <- H in Hin.
  apply filter_In in Hin. destruct Hin as [_ Hn].
  now apply negb_true_iff in Hn.
Qed.

Lemma nan_free_intro (ts : Series) :
  (forall p, In p ts -> is_nan (snd p) = false) -> nan_free ts.
Proof.
  unfold nan_free, dropna. induction ts as [|q r IH]; intros H.
  - reflexivity.
  - cbn [filter]. rewrite (H q) by now left. cbn [negb].
    rewrite IH; [reflexivity|]. intros p Hp. apply H. now right.
Qed.

Lemma nan_free_label_slice (a b : label) (ts : Series) :
  nan_free ts -> nan_free (label_slice a b ts).
Proof.
  intros H. apply nan_free_intro. intros p Hp.
  unfold label_slice in Hp. apply filter_In in Hp.
  apply (nan_free_In ts); tauto.
Qed.

(** ** The order of the values *)

Lemma SFltb_below_the_rest (p b q : SpecFloat.spec_float) :
  q <> SpecFloat.S754_nan ->
  SpecFloat.SFltb p b = true ->
  SpecFloat.SFltb q b = false ->
  SpecFloat.SFltb p q = true.
Proof.
  intros Hq. unfold SpecFloat.SFltb, SpecFloat.SFcompare.
  destruct p as [sp|sp| |sp mp ep], b as [sb|sb| |sb mb eb],
           q as [sq|sq| |sq mq eq_];
    try congruence;
    try (destruct sp); try (destruct sb); try (destruct sq);
    try discriminate; try reflexivity; intros H1 H2.
  all: change (Pos.compare_cont Eq) with Pos.compare in *.
  all: compare_cases.
Qed.

Lemma SFltb_above_the_rest (p b q : SpecFloat.spec_float) :
  q <> SpecFloat.S754_nan ->
  SpecFloat.SFltb b p = true ->
  SpecFloat.SFltb b q = false ->
  SpecFloat.SFltb q p = true.
Proof.
  intros Hq. unfold SpecFloat.SFltb, SpecFloat.SFcompare.
  destruct p as [sp|sp| |sp mp ep], b as [sb|sb| |sb mb eb],
           q as [sq|sq| |sq mq eq_];
    try congruence;
    try (destruct sp); try (destruct sb); try (destruct sq);
    try discriminate; try reflexivity; intros H1 H2.
  all: change (Pos.compare_cont Eq) with Pos.compare in *.
  all: compare_cases.
Qed.

Lemma SFltb_asym (a b : SpecFloat.spec_float) :
  SpecFloat.SFltb a b = true -> SpecFloat.SFltb b a = false.
Proof.
  unfold SpecFloat.SFltb, SpecFloat.SFcompare.
  destruct a as [sa|sa| |sa ma ea], b as [sb|sb| |sb mb eb];
    try (destruct sa); try (destruct sb);
    try discriminate; try reflexivity; intros H1.
  all: change (Pos.compare_cont Eq) with Pos.compare in *.
  all: compare_cases.
Qed.

Lemma is_nan_Prim2SF (x : float) :
  is_nan x = false -> FloatOps.Prim2SF x <> SpecFloat.S754_nan.
Proof.
  unfold is_nan. rewrite FloatAxioms.eqb_spec. intros H Hn.
  rewrite Hn in H. discriminate.
Qed.

Lemma ltb_below_the_rest (p b q : float) :
  is_nan q = false ->
  PrimFloat.ltb p b = true -> PrimFloat.ltb q b = false ->
  PrimFloat.ltb p q = true.
Proof.
  rewrite !FloatAxioms.ltb_spec. intros Hq.
  apply SFltb_below_the_rest. now apply is_nan_Prim2SF.
Qed.

Lemma ltb_above_the_rest (p b q : float) :
  is_nan q = false ->
  PrimFloat.ltb b p = true -> PrimFloat.ltb b q = false ->
  PrimFloat.ltb q p = true.
Proof.
  rewrite !FloatAxioms.ltb_spec. intros Hq.
  apply SFltb_above_the_rest. now apply is_nan_Prim2SF.
Qed.

Lemma ltb_asym (a b : float) :
  PrimFloat.ltb a b = true -> PrimFloat.ltb b a = false.
Proof. rewrite !FloatAxioms.ltb_spec. apply SFltb_asym. Qed.

(** [first_best] finds the first extreme row under a comparison that
    is asymmetric and such that what beats a row beats every row that
    this row does not lose to. *)
Lemma first_best_split (better : float -> float -> bool) :
  (forall a b, better a b = true -> better b a = false) ->
  (forall p b q, is_nan q = false ->
                 better p b = true -> better q b = false ->
                 better p q = true) ->
  forall (l pre mid : Series) (best : Timestamp * float),
    (forall p, In p (pre ++ best :: mid ++ l) -> is_nan (snd p) = false) ->
    (forall p, In p pre -> better (snd best) (snd p) = true) ->
    (forall p, In p mid -> better (snd p) (snd best) = false) ->
    exists l1 l2,
      pre ++ best :: mid ++ l = l1 ++ first_best better best l :: l2
      /\ (forall p, In p l1 ->
                    better (snd (first_best better best l)) (snd p) = true)
      /\ (forall p, In p l2 ->
                    better (snd p) (snd (first_best better best l)) = false).
Proof.
  intros Hasym Hrest.
  induction l as [|p r IH]; intros pre mid best Hnan Hpre Hmid.
  - exists pre, mid. rewrite app_nil_r. cbn [first_best]. auto.
  - cbn [first_best]. destruct (better (snd p) (snd best)) eqn:E.
    + destruct (IH (pre ++ best :: mid) [] p) as [l1 [l2 [Heq [H1 H2]]]].
      * intros q Hq. apply Hnan. rewrite <- app_assoc in Hq. cbn in Hq.
        exact Hq.
      * intros q Hq. apply in_app_or in Hq. destruct Hq as [Hq|[Hq|Hq]].
        -- apply (Hrest _ (snd best)); [|exact E|].
           ++ apply Hnan. apply in_or_app. now left.
           ++ apply Hasym. now apply Hpre.
        -- subst q. exact E.
        -- apply (Hrest _ (snd best)); [|exact E|now apply Hmid].
           apply Hnan. apply in_or_app. right. right.
           apply in_or_app. now left.
      * intros q [].
      * exists l1, l2. split; [|auto].
        rewrite <- Heq. rewrite <- app_assoc. reflexivity.
    + destruct (IH pre (mid ++ [p]) best) as [l1 [l2 [Heq [H1 H2]]]].
      * intros q Hq. apply Hnan. rewrite <- app_assoc in Hq. exact Hq.
      * exact Hpre.
      * intros q Hq. apply in_app_or in Hq. destruct Hq as [Hq|[Hq|[]]].
        -- now apply Hmid.
        -- subst q. exact E.
      * exists l1, l2. split; [|auto].
        rewrite <- Heq. rewrite <- app_assoc. reflexivity.
Qed.

Lemma get_min_first_extreme (ts : Series) (v : float) (t : Timestamp) :
  nan_free ts -> get_min ts = Ok (v, t) -> first_extreme below ts v t.
Proof.
  intros Hnan H. destruct ts as [|p r]; [discriminate|].
  unfold get_min in H. inversion H. subst. unfold first_extreme.
  rewrite <- surjective_pairing.
  destruct (first_best_split below ltb_asym ltb_below_the_rest r [] [] p)
    as [l1 [l2 [Heq [H1 H2]]]].
  - intros q Hq. now apply (nan_free_In (p :: r)).
  - intros q [].
  - intros q [].
  - exists l1, l2. auto.
Qed.

Lemma get_max_first_extreme (ts : Series) (v : float) (t : Timestamp) :
  nan_free ts -> get_max ts = Ok (v, t) -> first_extreme above ts v t.
Proof.
  intros Hnan H. destruct ts as [|p r]; [discriminate|].
  unfold get_max in H. inversion H. subst. unfold first_extreme.
  rewrite <- surjective_pairing.
  destruct (first_best_split above
              (fun a b => ltb_asym b a)
              (fun p b q Hq Hp Hb => ltb_above_the_rest p b q Hq Hp Hb)
              r [] [] p)
    as [l1 [l2 [Heq [H1 H2]]]].
  - intros q Hq. now apply (nan_free_In (p :: r)).
  - intros q [].
  - intros q [].
  - exists l1, l2. auto.
Qed.

(** X2. On a series without NaN, [get_min] and [get_max] fail exactly
    on the empty series, with [ValueError]; on any other series each
    returns the value and the timestamp of one and the same row, the
    first row holding the least (greatest) value: every row before it
    holds a greater (smaller) value, and no row after it a smaller
    (greater) one. *)
Theorem get_min_max_first_extreme_row (ts : Series) :
  nan_free ts ->
  (get_min ts = Raise ValueError <-> ts = [])
  /\ (get_max ts = Raise ValueError <-> ts = [])
  /\ (ts <> [] ->
      exists v t v' t',
        get_min ts = Ok (v, t) /\ first_extreme below ts v t
        /\ get_max ts = Ok (v', t') /\ first_extreme above ts v' t').
Proof.
  intros Hnan. split; [|split].
  - destruct ts; split; intros H; try reflexivity; discriminate.
  - destruct ts; split; intros H; try reflexivity; discriminate.
  - intros Hne. destruct ts as [|p r]; [contradiction|].
    destruct (get_min (p :: r)) as [[v t]|ex] eqn:E1; [|discriminate].
    destruct (get_max (p :: r)) as [[v' t']|ex] eqn:E2; [|discriminate].
    exists v, t, v', t'.
    split; [reflexivity|]. split; [now apply get_min_first_extreme|].
    split; [reflexivity|]. now apply get_max_first_extreme.
Qed.

Lemma dip_nan_free : nan_free dip.
Proof. by_evaluation. Qed.

Lemma get_min_max_first_extreme_row_witness :
  (get_min dip = Raise ValueError <-> dip = [])
  /\ (get_max dip = Raise ValueError <-> dip = [])
  /\ (dip <> [] ->
      exists v t v' t',
        get_min dip = Ok (v, t) /\ first_extreme below dip v t
        /\ get_max dip = Ok (v', t') /\ first_extreme above dip v' t').
Proof.
  apply (get_min_max_first_extreme_row dip). exact dip_nan_free.
Defined.

(** X3. A mode other than ['min'] and ['max'] is refused with
    [ValueError] by [get_extrema], by [get_real_extrema] (before the
    window is looked at and without a random draw) and by
    [bool_check_around_bound], whatever the data. *)
Theorem invalid_mode_is_value_error
        (P : parsers) (ts : Series) (w : Window) (tp : tape)
        (bound : Timestamp) (cand : extremum) (mode : string) :
  mode <> "min"%string ->
  mode <> "max"%string ->
  get_extrema ts mode = Raise ValueError
  /\ get_real_extrema P ts w mode tp = Raise ValueError
  /\ bool_check_around_bound ts bound cand mode = Raise ValueError.
Proof.
  intros H1 H2.
  assert (check_input mode ["min"; "max"]%string = Raise ValueError) as Hc.
  { apply check_input_raise. simpl. intuition congruence. }
  unfold get_extrema, get_real_extrema, bool_check_around_bound, mbind, lift.
  rewrite Hc. repeat split; reflexivity.
Qed.

Lemma invalid_mode_is_value_error_witness :
  get_extrema dip "both" = Raise ValueError
  /\ get_real_extrema no_strings dip (WPeriod 0) "both" [] = Raise ValueError
  /\ bool_check_around_bound dip (at_half_hour 5)
       (Some 0.5%float, Some (at_half_hour 5)) "both" = Raise ValueError.
Proof.
  apply (invalid_mode_is_value_error no_strings dip (WPeriod 0) []
           (at_half_hour 5) (Some 0.5%float, Some (at_half_hour 5)) "both").
  - discriminate.
  - discriminate.
Defined.

(** ** More on the boundary validator *)

(** X4. In a series of ten rows or more, a candidate on a boundary that
    sits at one of the first five rows is always rejected: the start of
    the positional slice [bound_idx - 5] is negative, counts from the
    end of the series, and the slice is empty. *)
Theorem bool_check_around_bound_rejects_near_head
        (ts : Series) (bound : Timestamp) (cand : extremum)
        (mode : string) (i : Z) :
  mode = "min"%string \/ mode = "max"%string ->
  (10 <= List.length ts)%nat ->
  get_loc bound ts = Ok i ->
  i < 5 ->
  neighborhood ts i = []
  /\ bool_check_around_bound ts bound cand mode = Ok false.
Proof.
  intros Hmode Hlen Hloc Hi.
  pose proof (get_loc_range bound ts i Hloc) as Hr.
  assert (neighborhood ts i = []) as Hn.
  { unfold neighborhood, py_slice, py_clip.
    assert ((i - 5 <? 0) = true) as -> by (apply Z.ltb_lt; lia).
    assert ((i + 5 <? 0) = false) as -> by (apply Z.ltb_ge; lia).
    replace (Z.to_nat (Z.min (i + 5) (Z.of_nat (List.length ts))
                       - Z.max 0 (i - 5 + Z.of_nat (List.length ts))))
      with 0%nat by lia.
    reflexivity. }
  split; [exact Hn|].
  unfold bool_check_around_bound.
  assert (check_input mode ["min"; "max"]%string = Ok tt) as ->
      by (destruct Hmode; subst; reflexivity).
  rewrite Hloc. cbn [rbind]. rewrite Hn. reflexivity.
Qed.

Lemma bool_check_around_bound_rejects_near_head_witness :
  neighborhood dip 0 = []
  /\ bool_check_around_bound dip 0 (Some 5%float, Some 0) "max" = Ok false.
Proof.
  apply (bool_check_around_bound_rejects_near_head dip 0
           (Some 5%float, Some 0) "max" 0).
  - right. reflexivity.
  - vm_compute. lia.
  - vm_compute. reflexivity.
  - lia.
Defined.

(** X5. [get_index_of_bound] raises [IndexError] exactly when the window
    holds no sample; otherwise it returns the timestamp of a sample
    lying in the window, the first one for the start edge. *)
Theorem get_index_of_bound_is_a_sample_of_the_window
        (ts : Series) (w : stamp * stamp) (e : edge) :
  (get_index_of_bound ts w e = Raise IndexError
   <-> stamp_slice (fst w) (snd w) ts = [])
  /\ (forall b, get_index_of_bound ts w e = Ok b ->
                exists v, In (b, v) (stamp_slice (fst w) (snd w) ts)
                          /\ In (b, v) ts)
  /\ (forall p rest, stamp_slice (fst w) (snd w) ts = p :: rest ->
                     get_index_of_bound ts w EStart = Ok (fst p)).
Proof.
  unfold get_index_of_bound. cbv zeta.
  set (sub := stamp_slice (fst w) (snd w) ts).
  assert (forall p, In p sub -> In p ts) as Hsub.
  { intros p Hp. unfold sub, stamp_slice, label_slice in Hp.
    apply filter_In in Hp. tauto. }
  split; [|split].
  - destruct e.
    + unfold index_first. destruct sub; split; intros H;
        try reflexivity; discriminate.
    + unfold index_last. destruct (rev sub) as [|p r] eqn:E.
      * split; [intros _|reflexivity].
        apply (f_equal (@rev _)) in E. now rewrite rev_involutive in E.
      * split; [discriminate|]. intros H. rewrite H in E. discriminate.
  - intros b H. destruct e.
    + unfold index_first in H. destruct sub as [|[t v] r] eqn:E; [discriminate|].
      inversion H. subst. exists v. split; [now left|]. apply Hsub. now left.
    + unfold index_last in H. destruct (rev sub) as [|[t v] r] eqn:E; [discriminate|].
      inversion H. subst. exists v.
      assert (In (b, v) sub) by (apply in_rev; rewrite E; now left).
      auto.
  - intros p rest H. unfold sub in *. rewrite H. reflexivity.
Qed.

(** ** More on the window resolver *)

Lemma components_minutes_range (td : Timedelta) : 0 <= components_minutes td < 60.
Proof. unfold components_minutes. apply Z.mod_pos_bound. lia. Qed.

Lemma components_seconds_range (td : Timedelta) : 0 <= components_seconds td < 60.
Proof. unfold components_seconds. apply Z.mod_pos_bound. lia. Qed.

Lemma resolution_grid_nonneg (gap : Timedelta) : 0 <= resolution_grid gap.
Proof.
  unfold resolution_grid.
  pose proof (components_minutes_range gap).
  pose proof (components_seconds_range gap).
  assert (0 < ns_per_second) by reflexivity.
  assert (0 < ns_per_minute) by reflexivity.
  destruct (components_minutes gap =? 0); nia.
Qed.

Lemma np_remainder_nonneg (a b : Z) : 0 <= b -> 0 <= np_remainder a b.
Proof.
  intros Hb. unfold np_remainder. destruct (b =? 0) eqn:E; [lia|].
  apply Z.eqb_neq in E. apply Z.mod_pos_bound. lia.
Qed.

Lemma Timestamp_ceil_ge (t : Timestamp) (gap : Timedelta) :
  t <= Timestamp_ceil t (window_res gap).
Proof.
  unfold Timestamp_ceil. rewrite freq_nanos_window_res.
  pose proof (np_remainder_nonneg (- t) _ (resolution_grid_nonneg gap)). lia.
Qed.

Lemma Timestamp_floor_le (t : Timestamp) (gap : Timedelta) :
  Timestamp_floor t (window_res gap) <= t.
Proof.
  unfold Timestamp_floor. rewrite freq_nanos_window_res.
  pose proof (np_remainder_nonneg t _ (resolution_grid_nonneg gap)). lia.
Qed.

(** The exact window lies inside the raw bounds. *)
Lemma to_exact_indexing_inside
      (P : parsers) (w : Window) (ts : Series) (tp tp' : tape)
      (s e : Timestamp) (a b : stamp) :
  raw_bounds P w ts = Ok (BTimestamp s, BTimestamp e) ->
  to_exact_indexing P w ts tp = Ok (Some (a, b), tp') ->
  exists s' e', a = At s' /\ b = At e' /\ s <= s' /\ e' <= e.
Proof.
  intros Hraw. unfold to_exact_indexing, mbind, lift. rewrite Hraw.
  unfold match_resolution, mbind, lift.
  cbn [slice_between slice_label rbind].
  destruct (negb _ && _); [|discriminate].
  destruct (randint 1 _ tp) as [[i tp1]|ex]; [|discriminate].
  cbn [bound_ceil bound_floor ret]. intros H. inversion H.
  eexists. eexists. split; [reflexivity|]. split; [reflexivity|].
  split; [apply Timestamp_ceil_ge|apply Timestamp_floor_le].
Qed.

(** X6. The resolver draws at most one random number, and none when it
    answers [None] or fails before matching the resolution. *)
Theorem to_exact_indexing_draws_at_most_once
        (P : parsers) (w : Window) (ts : Series) (tp tp' : tape)
        (r : option (stamp * stamp)) :
  to_exact_indexing P w ts tp = Ok (r, tp') ->
  (r = None -> tp' = tp) /\ (tp' = tp \/ tp' = tl tp).
Proof.
  unfold to_exact_indexing, mbind, lift.
  destruct (raw_bounds P w ts) as [[start end_]|ex]; [|discriminate].
  unfold match_resolution, mbind, lift.
  destruct (slice_between P start end_ ts) as [subset|ex]; [|discriminate].
  destruct (negb _ && _).
  - destruct tp as [|x tp0]; cbn [randint].
    + destruct (bound_ceil start _); [|discriminate].
      destruct (bound_floor end_ _); [|discriminate].
      unfold ret. intros H. inversion H. split; [discriminate|now left].
    + destruct (bound_ceil start _); [|discriminate].
      destruct (bound_floor end_ _); [|discriminate].
      unfold ret. intros H. inversion H. split; [discriminate|now right].
  - unfold ret. intros H. inversion H. split; [reflexivity|now left].
Qed.

Lemma to_exact_indexing_draws_at_most_once_witness :
  (Some (At 0, At (at_half_hour 47)) = None -> ([] : tape) = [3%nat])
  /\ (([] : tape) = [3%nat] \/ ([] : tape) = tl [3%nat]).
Proof.
  apply (to_exact_indexing_draws_at_most_once no_strings (WPeriod 0) dip
           [3%nat] [] (Some (At 0, At (at_half_hour 47)))).
  vm_compute. reflexivity.
Defined.

(** X7. When every pair of adjacent samples of the slice gives the same
    grid, the random choice of the pair does not show: whatever is
    drawn, the resolver returns the raw start rounded up and the raw end
    rounded down to that grid. *)
Theorem to_exact_indexing_regular_sampling
        (P : parsers) (w : Window) (ts : Series) (s e : Timestamp) (g : Z) :
  raw_bounds P w ts = Ok (BTimestamp s, BTimestamp e) ->
  (3 <= List.length (loc_slice s e ts))%nat ->
  (forall k : nat,
      (1 <= k < List.length (loc_slice s e ts))%nat ->
      resolution_grid (nth k (index (loc_slice s e ts)) 0
                       - nth (k - 1) (index (loc_slice s e ts)) 0) = g) ->
  forall tp : tape,
  exists tp' : tape,
    to_exact_indexing P w ts tp
    = Ok (Some (At (s + np_remainder (- s) g), At (e - np_remainder e g)),
          tp').
Proof.
  intros Hraw Hlen Hgrid tp.
  unfold to_exact_indexing, mbind, lift. rewrite Hraw.
  unfold match_resolution, mbind, lift.
  cbn [slice_between slice_label rbind]. fold (loc_slice s e ts).
  set (subset := loc_slice s e ts) in *.
  assert ((2 <? List.length subset)%nat = true) as ->
      by (apply Nat.ltb_lt; lia).
  assert (Nat.eqb (List.length subset) 0 = false) as ->
      by (apply Nat.eqb_neq; lia).
  cbn [negb andb].
  destruct (randint_range 1 (Z.of_nat (List.length subset) - 1) tp)
    as [i [tp' [Hr Hi]]]; [lia|].
  rewrite Hr. cbn [bound_ceil bound_floor ret]. exists tp'.
  unfold Timestamp_ceil, Timestamp_floor. rewrite freq_nanos_window_res.
  replace (Z.to_nat (i - 1)) with (Z.to_nat i - 1)%nat by lia.
  rewrite (Hgrid (Z.to_nat i)) by lia. reflexivity.
Qed.

Lemma to_exact_indexing_regular_sampling_witness :
  exists tp' : tape,
    to_exact_indexing no_strings (WPeriod 0) dip [7%nat]
    = Ok (Some (At (0 + np_remainder (- 0) (30 * ns_per_minute)),
                At (Period_end_time 0
                    - np_remainder (Period_end_time 0) (30 * ns_per_minute))),
          tp').
Proof.
  assert (List.length (loc_slice 0 (Period_end_time 0) dip) = 12%nat) as Hl
      by (vm_compute; reflexivity).
  refine (to_exact_indexing_regular_sampling no_strings (WPeriod 0) dip
            0 (Period_end_time 0) (30 * ns_per_minute) eq_refl _ _ [7%nat]).
  - rewrite Hl. lia.
  - intros k Hk. rewrite Hl in Hk.
    do 12 (destruct k as [|k]; [try lia; vm_compute; reflexivity|]).
    lia.
Defined.

(** X8. An integer window [N] starts at the first sample and ends at
    23:59:59 of the calendar day [N] days after the first sample's day:
    counting both ends it spans [N + 1] calendar days. *)
Theorem integer_window_spans_one_more_day
        (P : parsers) (n : Z) (p : Timestamp * float) (rest : Series) :
  exists e : Timestamp,
    raw_bounds P (WInt n) (p :: rest) = Ok (BTimestamp (fst p), BTimestamp e)
    /\ to_period_D e = to_period_D (fst p) + n
    /\ (e mod ns_per_day) / ns_per_second = 86399.
Proof.
  exists (make_end_of_day (fst p + Timedelta_days n)).
  split; [reflexivity|]. split.
  - rewrite to_period_D_make_end_of_day. unfold to_period_D, Timedelta_days.
    apply Z.div_add. discriminate.
  - destruct (make_end_of_day_parts (fst p + Timedelta_days n))
      as [q [m [Hq [Hm [Hmb [He _]]]]]].
    assert (0 < ns_per_second) as HS by reflexivity.
    rewrite He.
    assert ((q * ns_per_day + (86399 * ns_per_second + m)) mod ns_per_day
            = 86399 * ns_per_second + m) as ->.
    { symmetry. apply (Z.mod_unique _ _ q).
      - left. rewrite ns_per_day_seconds. lia.
      - lia. }
    symmetry. apply (Z.div_unique _ _ _ m); [left|]; lia.
Qed.

(** X9. On an empty series the forms of window that read the first or
    last timestamp fail with [IndexError]: an integer, a string pair
    starting with ['first'], and a string pair ending with ['last'] (the
    index is read before any string is parsed). *)
Theorem windows_on_empty_series_raise_index_error
        (P : parsers) (tp : tape) (n : Z) (s e : string) :
  to_exact_indexing P (WInt n) [] tp = Raise IndexError
  /\ to_exact_indexing P (WSeq [BStr "first"; BStr e]) [] tp = Raise IndexError
  /\ (s <> "first"%string ->
      to_exact_indexing P (WSeq [BStr s; BStr "last"]) [] tp
      = Raise IndexError).
Proof.
  split; [reflexivity|]. split; [reflexivity|].
  intros Hs. apply String.eqb_neq in Hs.
  unfold to_exact_indexing, mbind, lift. cbn [raw_bounds check_length
    List.length existsb Nat.eqb orb rbind]. rewrite Hs. reflexivity.
Qed.

(** X10. In a string pair the marker ['last'] is honoured only when the
    start is not ['first']: for [('first', 'last')] the end is handed to
    the date parser, and the resolver fails with the parser's error when
    the parser does not read ['last'] as a date. *)
Theorem first_last_pair_parses_last
        (P : parsers) (ts : Series) (tp : tape) (ex : exn) :
  ts <> [] ->
  to_datetime P "last" = Raise ex ->
  to_exact_indexing P (WSeq [BStr "first"; BStr "last"]) ts tp = Raise ex.
Proof.
  intros Hne Hp. destruct ts as [|p r]; [contradiction|].
  unfold to_exact_indexing, mbind, lift. cbn [raw_bounds check_length
    List.length existsb Nat.eqb orb rbind String.eqb Ascii.eqb Bool.eqb
    index_first]. rewrite Hp. reflexivity.
Qed.

Lemma first_last_pair_parses_last_witness :
  to_exact_indexing no_strings (WSeq [BStr "first"; BStr "last"]) dip []
  = Raise ValueError.
Proof.
  apply (first_last_pair_parses_last no_strings dip [] ValueError).
  - discriminate.
  - reflexivity.
Defined.

(** ** What the searches return *)

Lemma stamp_slice_In (a b : stamp) (ts : Series) (p : Timestamp * float) :
  In p (stamp_slice a b ts) ->
  In p ts
  /\ (forall s, a = At s -> s <= fst p)
  /\ (forall e, b = At e -> fst p <= e).
Proof.
  unfold stamp_slice, label_slice. intros H. apply filter_In in H.
  destruct H as [Hin Hc]. apply andb_true_iff in Hc. destruct Hc as [Ha Hb].
  split; [exact Hin|]. split.
  - intros s ->. cbn in Ha. now apply Z.leb_le.
  - intros e ->. cbn in Hb. now apply Z.leb_le.
Qed.

Lemma get_real_extrema_shape
      (P : parsers) (ts : Series) (w : Window) (mode : string)
      (tp tp' : tape) (ext : extremum) :
  get_real_extrema P ts w mode tp = Ok (ext, tp') ->
  ext = not_found
  \/ exists v t,
      ext = (Some v, Some t) /\ In (t, v) ts
      /\ forall s e, raw_bounds P w ts = Ok (BTimestamp s, BTimestamp e) ->
                     s <= t <= e.
Proof.
  unfold get_real_extrema, mbind, lift.
  destruct (check_input mode _) as [u|ex]; [|discriminate].
  destruct (to_exact_indexing P w ts tp) as [[[[wa wb]|] tp1]|ex] eqn:E;
    [| |discriminate].
  - cbn [fst snd].
    destruct (get_extrema (stamp_slice wa wb ts) mode) as [tup|ex] eqn:Eg;
      [|discriminate].
    destruct (on_boundary ts (wa, wb) tup mode) as [ok|ex]; [|discriminate].
    destruct ok; cbn [negb]; unfold ret; intros H; inversion H; subst.
    + right. apply get_extrema_shape in Eg. destruct Eg as [v [t [-> Hin]]].
      apply stamp_slice_In in Hin. destruct Hin as [Hin [Ha Hb]].
      exists v, t. split; [reflexivity|]. split; [exact Hin|].
      intros s e Hraw.
      destruct (to_exact_indexing_inside P w ts tp tp' s e wa wb Hraw E)
        as [s' [e' [-> [-> [Hs He]]]]].
      specialize (Ha s' eq_refl). specialize (Hb e' eq_refl).
      cbn [fst] in Ha, Hb. lia.
    + now left.
  - unfold ret. intros H. inversion H. now left.
Qed.

Lemma to_period_D_in_day (d : Z) (t : Timestamp) :
  Period_start_time d <= t <= Period_end_time d -> to_period_D t = d.
Proof.
  unfold Period_start_time, Period_end_time, to_period_D. intros H.
  assert (0 < ns_per_day) by reflexivity.
  symmetry. apply (Z.div_unique _ _ d (t - d * ns_per_day)); [left|]; lia.
Qed.

Lemma get_real_extrema_extreme
      (P : parsers) (ts : Series) (w : Window) (mode : string)
      (tp tp' : tape) (v : float) (t : Timestamp) :
  nan_free ts ->
  get_real_extrema P ts w mode tp = Ok ((Some v, Some t), tp') ->
  exists a b tp1,
    to_exact_indexing P w ts tp = Ok (Some (a, b), tp1)
    /\ first_extreme (if String.eqb mode "max" then above else below)
                     (stamp_slice a b ts) v t.
Proof.
  intros Hnan. unfold get_real_extrema, mbind, lift.
  destruct (check_input mode _) as [u|ex]; [|discriminate].
  destruct (to_exact_indexing P w ts tp) as [[[[wa wb]|] tp1]|ex] eqn:E;
    [| |discriminate].
  - cbn [fst snd].
    destruct (get_extrema (stamp_slice wa wb ts) mode) as [tup|ex] eqn:Eg;
      [|discriminate].
    destruct (on_boundary ts (wa, wb) tup mode) as [ok|ex]; [|discriminate].
    destruct ok; cbn [negb]; unfold ret; intros H; inversion H; subst.
    exists wa, wb, tp'. split; [reflexivity|].
    assert (nan_free (stamp_slice wa wb ts)) as Hs
        by (now apply nan_free_label_slice).
    unfold get_extrema in Eg.
    destruct (check_input mode _); [|discriminate]. cbn [rbind] in Eg.
    destruct (String.eqb mode "max").
    + destruct (get_max (stamp_slice wa wb ts)) as [[v0 t0]|ex] eqn:Em;
        [|discriminate].
      cbn [rbind fst snd] in Eg. inversion Eg. subst.
      now apply get_max_first_extreme.
    + destruct (get_min (stamp_slice wa wb ts)) as [[v0 t0]|ex] eqn:Em;
        [|discriminate].
      cbn [rbind fst snd] in Eg. inversion Eg. subst.
      now apply get_min_first_extreme.
  - unfold ret. intros H. inversion H.
Qed.

(** X11. On a series without NaN, what [get_real_extrema] returns is
    either [(None, None)] or the value and timestamp of one row of the
    series, namely the first least row (for ['min']) or the first
    greatest row (for ['max']) of the slice between the exact bounds the
    resolver gave for the window.  When the window gave raw timestamp
    bounds the timestamp lies between them, and for a calendar day it
    falls on that day. *)
Theorem get_real_extrema_returns_the_extreme_of_the_window
        (P : parsers) (ts : Series) (w : Window) (mode : string)
        (tp tp' : tape) (ext : extremum) :
  nan_free ts ->
  get_real_extrema P ts w mode tp = Ok (ext, tp') ->
  ext = not_found
  \/ exists v t,
      ext = (Some v, Some t) /\ In (t, v) ts
      /\ (exists a b tp1,
             to_exact_indexing P w ts tp = Ok (Some (a, b), tp1)
             /\ first_extreme (if String.eqb mode "max" then above else below)
                              (stamp_slice a b ts) v t)
      /\ (forall s e, raw_bounds P w ts = Ok (BTimestamp s, BTimestamp e) ->
                      s <= t <= e)
      /\ (forall day, w = WPeriod day -> to_period_D t = day).
Proof.
  intros Hnan H. pose proof H as H0. apply get_real_extrema_shape in H.
  destruct H as [H|[v [t [He [Hin Hb]]]]]; [now left|right].
  exists v, t. split; [exact He|]. split; [exact Hin|]. subst ext.
  split; [exact (get_real_extrema_extreme P ts w mode tp tp' v t Hnan H0)|].
  split; [exact Hb|].
  intros day ->. apply to_period_D_in_day. apply Hb. reflexivity.
Qed.

Lemma get_real_extrema_returns_the_extreme_of_the_window_witness :
  (Some 0.5%float, Some (at_half_hour 5)) = not_found
  \/ exists v t,
      (Some 0.5%float, Some (at_half_hour 5)) = (Some v, Some t)
      /\ In (t, v) dip
      /\ (exists a b tp1,
             to_exact_indexing no_strings (WPeriod 0) dip []
             = Ok (Some (a, b), tp1)
             /\ first_extreme (if String.eqb "min" "max" then above else below)
                              (stamp_slice a b dip) v t)
      /\ (forall s e,
             raw_bounds no_strings (WPeriod 0) dip
             = Ok (BTimestamp s, BTimestamp e) -> s <= t <= e)
      /\ (forall day, WPeriod 0 = WPeriod day -> to_period_D t = day).
Proof.
  apply (get_real_extrema_returns_the_extreme_of_the_window no_strings dip
           (WPeriod 0) "min" [] []).
  - exact dip_nan_free.
  - vm_compute. reflexivity.
Defined.

(** ** Rows of the table *)

Lemma extract_loop_rows (P : parsers) (self : DiurnalExtrema)
      (R : DailyRecord -> Prop) (days : list Z) :
  (forall cache day tp mn mx cache' tp',
      In day days ->
      search_day P self cache day tp = Ok (mn, mx, cache', tp') ->
      skip_day (fst mn) (fst mx) = false ->
      R (row_of day mn mx)) ->
  forall cache vals vals' tp tp',
    Forall R vals ->
    extract_loop P self days cache vals tp = Ok (vals', tp') ->
    Forall R vals'.
Proof.
  induction days as [|day rest IH];
    intros Hstep cache vals vals' tp tp' Hv H.
  - simpl in H. unfold ret in H. inversion H. now subst.
  - simpl in H. unfold mbind in H.
    destruct (search_day P self cache day tp) as [[[[mn mx] cache'] tp1]|ex] eqn:E;
      [|discriminate].
    assert (forall cache day tp mn mx cache' tp',
               In day rest ->
               search_day P self cache day tp = Ok (mn, mx, cache', tp') ->
               skip_day (fst mn) (fst mx) = false ->
               R (row_of day mn mx)) as Hrest.
    { intros c d t0 a b c' t1 Hd. apply Hstep. now right. }
    destruct (skip_day (fst mn) (fst mx)) eqn:Es.
    + eapply (IH Hrest); [exact Hv|exact H].
    + eapply (IH Hrest); [|exact H]. apply Forall_app. split; [exact Hv|].
      constructor; [|constructor].
      apply (Hstep cache day tp mn mx cache' tp1); [now left|exact E|exact Es].
Qed.

Lemma find_diurnal_extrema_rows (P : parsers) (self : DiurnalExtrema)
      (R : DailyRecord -> Prop) :
  (forall cache day tp mn mx cache' tp',
      In day (unique (map to_period_D (index (timeseries self)))) ->
      search_day P self cache day tp = Ok (mn, mx, cache', tp') ->
      skip_day (fst mn) (fst mx) = false ->
      R (row_of day mn mx)) ->
  forall tp tp' df,
    find_diurnal_extrema P self tp = Ok (df, tp') -> Forall R df.
Proof.
  intros Hstep tp tp' df. unfold find_diurnal_extrema, mbind, lift, ret.
  destruct (extract_loop P self _ None [] tp) as [[vals tp1]|ex] eqn:E;
    [|discriminate].
  destruct (DataFrame_set_index vals) as [df0|ex] eqn:E0; [|discriminate].
  intros H. inversion H. subst.
  assert (df0 = vals) as ->.
  { destruct vals; simpl in E0; [discriminate|]. now inversion E0. }
  apply (extract_loop_rows P self R _ Hstep) in E; [|constructor].
  apply Forall_forall. intros r Hr. apply apply_threshold_incl in Hr.
  revert r Hr. now apply Forall_forall.
Qed.

Lemma get_real_extrema_sample
      (P : parsers) (ts : Series) (w : Window) (mode : string)
      (tp tp' : tape) (ext : extremum) :
  get_real_extrema P ts w mode tp = Ok (ext, tp') -> sample_or_nothing ts ext.
Proof.
  intros H. apply get_real_extrema_shape in H.
  destruct H as [H|[v [t [He [Hin _]]]]]; [now left|right]. eauto.
Qed.

Lemma search_day_samples (P : parsers) (self : DiurnalExtrema)
      (cache cache' : option (Q * Q)) (day : Z) (tp tp' : tape)
      (mn mx : extremum) :
  search_day P self cache day tp = Ok (mn, mx, cache', tp') ->
  sample_or_nothing (timeseries self) mn
  /\ sample_or_nothing (timeseries self) mx.
Proof.
  unfold search_day. destruct (predictTiming self).
  - unfold mbind.
    destruct (cached_predict_extrema P self cache tp) as [[[mo xo] tp1]|ex];
      [|discriminate].
    cbn [get_occurance_windows map].
    destruct (get_real_extrema P (timeseries self) _ "min" tp1)
      as [[[minVal minTime] tp2]|ex] eqn:E1; [|discriminate].
    destruct (get_real_extrema P (timeseries self) _ "max" tp2)
      as [[mxt tp3]|ex] eqn:E2; [|discriminate].
    unfold ret. intros H. inversion H. subst.
    split; eapply get_real_extrema_sample; eassumption.
  - unfold mbind.
    destruct (get_real_extrema P (timeseries self) (WPeriod day) "min" tp)
      as [[[minVal minTime] tp1]|ex] eqn:E1; [|discriminate].
    destruct (minfirst self && maxnextday self).
    + destruct (get_real_extrema P (timeseries self) _ "max" tp1)
        as [[mxt tp2]|ex] eqn:E2; [|discriminate].
      unfold ret. intros H. inversion H. subst.
      split; eapply get_real_extrema_sample; eassumption.
    + destruct (get_real_extrema P (timeseries self) _ "max" tp1)
        as [[mxt tp2]|ex] eqn:E2; [|discriminate].
      unfold ret. intros H. inversion H. subst.
      split; eapply get_real_extrema_sample; eassumption.
Qed.

(** X12. Every row of the table the constructor's extraction pass
    builds holds, for the minimum and for the maximum alike, either
    nothing (value and time both missing) or the value and timestamp of
    one sample of the series with its nulls dropped: a value never comes
    without its time, and both always come from the same sample. *)
Theorem find_diurnal_extrema_rows_are_samples
        (P : parsers) (ts : Series) (minfirst_ maxnextday_ predictTiming_ : bool)
        (w : Window) (thr : option float) (tp tp' : tape) (df : ResultTable) :
  find_diurnal_extrema P
    (init ts minfirst_ maxnextday_ predictTiming_ w thr) tp = Ok (df, tp') ->
  Forall (fun r =>
            sample_or_nothing (dropna ts) (min_val r, min_time r)
            /\ sample_or_nothing (dropna ts) (max_val r, max_time r))
         df.
Proof.
  apply (find_diurnal_extrema_rows P
           (init ts minfirst_ maxnextday_ predictTiming_ w thr)).
  intros cache day tp0 mn mx cache' tp1 _ H _.
  apply search_day_samples in H. unfold row_of. cbn.
  now rewrite <- !surjective_pairing.
Qed.

Lemma dip_extraction :
  find_diurnal_extrema no_strings (init dip true true false (WInt 4) None) []
  = Ok (dip_table, []).
Proof. by_evaluation. Qed.

Lemma find_diurnal_extrema_rows_are_samples_witness :
  Forall (fun r =>
            sample_or_nothing (dropna dip) (min_val r, min_time r)
            /\ sample_or_nothing (dropna dip) (max_val r, max_time r))
         dip_table.
Proof.
  apply (find_diurnal_extrema_rows_are_samples no_strings dip
           true true false (WInt 4) None [] [] dip_table).
  exact dip_extraction.
Defined.

Lemma search_day_same_day (P : parsers) (self : DiurnalExtrema)
      (cache cache' : option (Q * Q)) (day : Z) (tp tp' : tape)
      (mn mx : extremum) :
  predictTiming self = false ->
  search_day P self cache day tp = Ok (mn, mx, cache', tp') ->
  (forall t, snd mn = Some t -> to_period_D t = day)
  /\ (minfirst self && maxnextday self = false ->
      forall t, snd mx = Some t -> to_period_D t = day)
  /\ (minfirst self && maxnextday self = true ->
      forall tmin tmax,
        snd mn = Some tmin -> snd mx = Some tmax ->
        tmin <= tmax <= tmin + Timedelta_hours 18).
Proof.
  intros Hp. unfold search_day. rewrite Hp. unfold mbind.
  destruct (get_real_extrema P (timeseries self) (WPeriod day) "min" tp)
    as [[[minVal minTime] tp1]|ex] eqn:E1; [|discriminate].
  assert (forall t, minTime = Some t -> to_period_D t = day) as Hmin.
  { intros t ->. apply get_real_extrema_shape in E1.
    destruct E1 as [E1|[v [t' [He [_ Hb]]]]]; [discriminate|].
    inversion He. subst. apply to_period_D_in_day. apply Hb. reflexivity. }
  destruct (minfirst self && maxnextday self).
  - destruct (get_real_extrema P (timeseries self) _ "max" tp1)
      as [[mxt tp2]|ex] eqn:E2; [|discriminate].
    unfold ret. intros H. inversion H. subst. cbn [snd].
    split; [exact Hmin|]. split; [discriminate|].
    intros _ tmin tmax -> Hmx.
    apply get_real_extrema_shape in E2.
    destruct E2 as [E2|[v [t' [He [_ Hb]]]]].
    + subst. discriminate.
    + subst. cbn [snd] in Hmx. inversion Hmx. subst.
      apply Hb. cbn [window_after raw_bounds check_length List.length existsb
        Nat.eqb orb rbind start_before_end].
      assert ((tmin <? tmin + Timedelta_hours 18) = true) as ->.
      { apply Z.ltb_lt. unfold Timedelta_hours.
        assert (0 < ns_per_hour) by reflexivity. lia. }
      reflexivity.
  - destruct (get_real_extrema P (timeseries self) _ "max" tp1)
      as [[mxt tp2]|ex] eqn:E2; [|discriminate].
    unfold ret. intros H. inversion H. subst. cbn [snd].
    split; [exact Hmin|]. split; [|discriminate].
    intros _ t Hmx. apply get_real_extrema_shape in E2.
    destruct E2 as [E2|[v [t' [He [_ Hb]]]]].
    + subst. discriminate.
    + subst. cbn [snd] in Hmx. inversion Hmx. subst.
      apply to_period_D_in_day. apply Hb. reflexivity.
Qed.

(** X13. Without predicted timing, the minimum recorded for a day is a
    sample of that calendar day; and unless minimum-first and
    maximum-next-day are both set, so is the maximum. *)
Theorem find_diurnal_extrema_extrema_fall_on_their_day
        (P : parsers) (ts : Series) (minfirst_ maxnextday_ : bool)
        (w : Window) (thr : option float) (tp tp' : tape) (df : ResultTable) :
  find_diurnal_extrema P
    (init ts minfirst_ maxnextday_ false w thr) tp = Ok (df, tp') ->
  Forall (fun r =>
            (forall t, min_time r = Some t -> to_period_D t = Date r)
            /\ (minfirst_ && maxnextday_ = false ->
                forall t, max_time r = Some t -> to_period_D t = Date r))
         df.
Proof.
  apply (find_diurnal_extrema_rows P
           (init ts minfirst_ maxnextday_ false w thr)).
  intros cache day tp0 mn mx cache' tp1 _ H _.
  destruct (search_day_same_day P
              (init ts minfirst_ maxnextday_ false w thr)
              cache cache' day tp0 tp1 mn mx eq_refl H)
    as [H1 [H2 _]].
  unfold row_of. cbn. split; assumption.
Qed.

Lemma dip_extraction_same_day :
  find_diurnal_extrema no_strings (init dip false true false (WInt 4) None) []
  = Ok (dip_table, []).
Proof. by_evaluation. Qed.

Lemma find_diurnal_extrema_extrema_fall_on_their_day_witness :
  Forall (fun r =>
            (forall t, min_time r = Some t -> to_period_D t = Date r)
            /\ (false && true = false ->
                forall t, max_time r = Some t -> to_period_D t = Date r))
         dip_table.
Proof.
  apply (find_diurnal_extrema_extrema_fall_on_their_day no_strings dip
           false true (WInt 4) None [] [] dip_table).
  exact dip_extraction_same_day.
Defined.

(** X14. Without predicted timing and with minimum-first and
    maximum-next-day both set, a recorded maximum lies between the
    recorded minimum of the same row and 18 hours after it. *)
Theorem find_diurnal_extrema_maximum_within_18_hours
        (P : parsers) (ts : Series) (w : Window) (thr : option float)
        (tp tp' : tape) (df : ResultTable) :
  find_diurnal_extrema P (init ts true true false w thr) tp = Ok (df, tp') ->
  Forall (fun r =>
            forall tmin tmax,
              min_time r = Some tmin -> max_time r = Some tmax ->
              tmin <= tmax <= tmin + Timedelta_hours 18)
         df.
Proof.
  apply (find_diurnal_extrema_rows P (init ts true true false w thr)).
  intros cache day tp0 mn mx cache' tp1 _ H _.
  destruct (search_day_same_day P (init ts true true false w thr)
              cache cache' day tp0 tp1 mn mx eq_refl H)
    as [_ [_ H3]].
  unfold row_of. cbn. apply H3. reflexivity.
Qed.

Lemma find_diurnal_extrema_maximum_within_18_hours_witness :
  Forall (fun r =>
            forall tmin tmax,
              min_time r = Some tmin -> max_time r = Some tmax ->
              tmin <= tmax <= tmin + Timedelta_hours 18)
         dip_table.
Proof.
  apply (find_diurnal_extrema_maximum_within_18_hours no_strings dip
           (WInt 4) None [] [] dip_table).
  exact dip_extraction.
Defined.

Lemma unique_incl (l : list Z) (x : Z) : In x (unique l) -> In x l.
Proof. intros H. now apply (unique_from_spec l []) in H. Qed.

(** X15. The table built by the extraction pass has at most one row per
    calendar day, and each row's day is the day of some sample of the
    series. *)
Theorem find_diurnal_extrema_one_row_per_sampled_day
        (P : parsers) (self : DiurnalExtrema) (tp tp' : tape)
        (df : ResultTable) :
  find_diurnal_extrema P self tp = Ok (df, tp') ->
  NoDup (map Date df)
  /\ Forall (fun r =>
               exists p, In p (timeseries self) /\ to_period_D (fst p) = Date r)
            df.
Proof.
  intros H. split.
  - now apply (find_diurnal_extrema_table P self tp tp').
  - revert H. apply find_diurnal_extrema_rows.
    intros cache day tp0 mn mx cache' tp1 Hday _ _.
    apply unique_incl in Hday. apply in_map_iff in Hday.
    destruct Hday as [t [Ht Hin]]. unfold index in Hin.
    apply in_map_iff in Hin. destruct Hin as [p [Hp Hin]].
    exists p. split; [exact Hin|]. unfold row_of. cbn. now rewrite Hp.
Qed.

Lemma find_diurnal_extrema_one_row_per_sampled_day_witness :
  NoDup (map Date dip_table)
  /\ Forall (fun r =>
               exists p,
                 In p (timeseries (init dip true true false (WInt 4) None))
                 /\ to_period_D (fst p) = Date r)
            dip_table.
Proof.
  apply (find_diurnal_extrema_one_row_per_sampled_day no_strings
           (init dip true true false (WInt 4) None) [] [] dip_table).
  exact dip_extraction.
Defined.

(** X16. An empty series, or one that holds only NaN, gives no row, and
    the extraction fails with [KeyError] when it indexes the empty frame
    by ['Date'], whatever the configuration. *)
Theorem find_diurnal_extrema_empty_series_is_key_error
        (P : parsers) (ts : Series) (minfirst_ maxnextday_ predictTiming_ : bool)
        (w : Window) (thr : option float) (tp : tape) :
  dropna ts = [] ->
  find_diurnal_extrema P
    (init ts minfirst_ maxnextday_ predictTiming_ w thr) tp
  = Raise KeyError.
Proof.
  intros H. unfold find_diurnal_extrema, init. cbn [timeseries].
  rewrite H. reflexivity.
Qed.

Lemma find_diurnal_extrema_empty_series_is_key_error_witness :
  find_diurnal_extrema no_strings
    (init [(0, nan); (at_half_hour 1, nan)] true true false (WInt 4) None) []
  = Raise KeyError.
Proof.
  apply (find_diurnal_extrema_empty_series_is_key_error no_strings
           [(0, nan); (at_half_hour 1, nan)] true true false (WInt 4) None []).
  vm_compute. reflexivity.
Defined.

Lemma skip_day_exactly (minVal maxVal : option float) :
  skip_day minVal maxVal = true <->
  exists x y,
    minVal = Some x /\ maxVal = Some y
    /\ PrimFloat.eqb x 0 = false /\ PrimFloat.eqb y 0 = false
    /\ PrimFloat.ltb y x = true.
Proof.
  unfold skip_day, val_truthy, val_gt. split.
  - destruct minVal as [x|], maxVal as [y|]; intros H;
      try (rewrite ?andb_false_r in H; discriminate).
    apply andb_true_iff in H. destruct H as [H H3].
    apply andb_true_iff in H. destruct H as [H1 H2].
    apply negb_true_iff in H1. apply negb_true_iff in H2.
    exists x, y. auto.
  - intros [x [y [-> [-> [Hx [Hy Hlt]]]]]]. now rewrite Hx, Hy, Hlt.
Qed.

(** X17. What the consistency check does guarantee: in every row of the
    table whose minimum and maximum are both present and both different
    from zero, the minimum is not above the maximum. *)
Theorem find_diurnal_extrema_rows_pass_the_check
        (P : parsers) (self : DiurnalExtrema) (tp tp' : tape)
        (df : ResultTable) :
  find_diurnal_extrema P self tp = Ok (df, tp') ->
  Forall (fun r =>
            forall x y,
              min_val r = Some x -> max_val r = Some y ->
              PrimFloat.eqb x 0 = false -> PrimFloat.eqb y 0 = false ->
              PrimFloat.ltb y x = false)
         df.
Proof.
  apply find_diurnal_extrema_rows.
  intros cache day tp0 mn mx cache' tp1 _ _ Hs.
  unfold row_of. cbn. intros x y Hx Hy Hx0 Hy0.
  destruct (PrimFloat.ltb y x) eqn:E; [|reflexivity].
  assert (skip_day (fst mn) (fst mx) = true) as Hskip.
  { apply skip_day_exactly. exists x, y. auto. }
  congruence.
Qed.

Lemma find_diurnal_extrema_rows_pass_the_check_witness :
  Forall (fun r =>
            forall x y,
              min_val r = Some x -> max_val r = Some y ->
              PrimFloat.eqb x 0 = false -> PrimFloat.eqb y 0 = false ->
              PrimFloat.ltb y x = false)
         dip_table.
Proof.
  apply (find_diurnal_extrema_rows_pass_the_check no_strings
           (init dip true true false (WInt 4) None) [] [] dip_table).
  exact dip_extraction.
Defined.

(** ** More on the threshold filter *)

(** X18. After the threshold filter no entry of [amplitude()] is below
    the threshold: each is missing or does not compare below it.  This
    holds for any table, with or without repeated days. *)
Theorem amplitudes_after_threshold (thr : float) (df : ResultTable) :
  Forall (fun a =>
            match a with
            | Some x => PrimFloat.ltb x thr = false
            | None => True
            end)
         (amplitude_column (apply_threshold (Some thr) df)).
Proof.
  unfold amplitude_column. apply Forall_forall. intros a Ha.
  apply in_map_iff in Ha. destruct Ha as [r [Hr Hin]]. subst a.
  pose proof (nothing_bad_left thr df) as Hnone.
  unfold apply_threshold in Hin.
  destruct (below_threshold thr r) eqn:Hb.
  - assert (In r (filter (below_threshold thr)
                         (drop (labels_below thr df) df))) as Habs
        by (apply filter_In; auto).
    rewrite Hnone in Habs. contradiction.
  - unfold below_threshold in Hb. destruct (amplitude r); [exact Hb|exact I].
Qed.

(** ** More on the manual override *)

Lemma at_label_compose (idx : Z) (f g : DailyRecord -> DailyRecord)
      (df : ResultTable) :
  (forall r, Date (g r) = Date r) ->
  at_label idx f (at_label idx g df)
  = at_label idx (fun r => f (g r)) df.
Proof.
  intros Hg. unfold at_label. rewrite map_map. apply map_ext. intros r.
  destruct (Date r =? idx) eqn:E.
  - now rewrite Hg, E.
  - now rewrite E.
Qed.

Lemma set_val_Date (which : string) (c : option float) (r : DailyRecord) :
  Date (set_val which c r) = Date r.
Proof. unfold set_val. now destruct (String.eqb which "min"). Qed.

Lemma set_time_Date (which : string) (c : option Timestamp) (r : DailyRecord) :
  Date (set_time which c r) = Date r.
Proof. unfold set_time. now destruct (String.eqb which "min"). Qed.

Lemma loc_column_which (which : string) :
  In which ["min"; "max"; "both"]%string ->
  loc_column (which ++ "_val")
  = if String.eqb which "both" then Raise KeyError else Ok tt.
Proof.
  intros [<-|[<-|[<-|[]]]]; reflexivity.
Qed.

(** X19. Called without a tuple for a day of the table (and without a
    sub-window), the method blanks the chosen extremum of that day:
    value and time become missing for ['min'], for ['max'] or for both,
    the other extremum of the day and every other day stay as they
    were.  This is so unless [verbose] is set together with ['both']:
    the message then reads the column ['both_val'], and the call ends
    in [KeyError] before any cell is written. *)
Theorem change_extrema_picks_without_tuple_blanks
        (P : parsers) (self : DiurnalExtrema) (df : ResultTable)
        (day : pyday) (idx : Z) (which : string) (new_extrema : pyval)
        (verbose : bool) :
  In which ["min"; "max"; "both"]%string ->
  Period_of P day = Ok idx ->
  In idx (map Date df) ->
  is_tuple new_extrema = false ->
  change_extrema_picks P self df day which new_extrema [] verbose
  = if verbose && String.eqb which "both"
    then Raise KeyError
    else Ok (map (fun r => if Date r =? idx then blank which r else r) df).
Proof.
  intros Hw Hp Hin Ht. unfold change_extrema_picks.
  assert (check_input which ["min"; "max"; "both"]%string = Ok tt) as ->
      by (now apply check_input_ok).
  cbn [rbind]. rewrite Hp. cbn [rbind].
  assert (existsb (Z.eqb idx) (map Date df) = true) as ->.
  { apply existsb_exists. exists idx. split; [exact Hin|apply Z.eqb_refl]. }
  cbn [negb]. unfold unpack_new_extrema. rewrite Ht. cbn [rbind].
  assert ((if verbose then loc_column (which ++ "_val") else Ok tt)
          = if verbose && String.eqb which "both"
            then Raise KeyError else Ok tt) as ->.
  { destruct verbose; [|reflexivity]. now rewrite loc_column_which. }
  destruct (verbose && String.eqb which "both"); [reflexivity|].
  cbn [rbind]. fold (at_label idx (blank which) df).
  destruct Hw as [<-|[<-|[<-|[]]]]; cbn [String.eqb Ascii.eqb Bool.eqb
    set_picks as_val_cell as_time_cell rbind].
  - rewrite at_label_compose by (intros; apply set_val_Date). reflexivity.
  - rewrite at_label_compose by (intros; apply set_val_Date). reflexivity.
  - repeat rewrite at_label_compose
      by (intros; rewrite ?set_time_Date, ?set_val_Date; reflexivity).
    reflexivity.
Qed.

Lemma change_extrema_picks_without_tuple_blanks_witness :
  change_extrema_picks no_strings
    (init dip true true false (WInt 4) None) two_day_table
    (DayPeriod 0) "both" (PStr "None") [] false
  = if false && String.eqb "both" "both"
    then Raise KeyError
    else Ok (map (fun r => if Date r =? 0 then blank "both" r else r)
                 two_day_table).
Proof.
  apply (change_extrema_picks_without_tuple_blanks no_strings
           (init dip true true false (WInt 4) None) two_day_table
           (DayPeriod 0) 0 "both" (PStr "None") false).
  - right. right. left. reflexivity.
  - reflexivity.
  - left. reflexivity.
  - reflexivity.
Defined.

(** With [verbose] the same call is lost on the message. *)
Example verbose_both_is_key_error :
  change_extrema_picks no_strings
    (init dip true true false (WInt 4) None) two_day_table
    (DayPeriod 0) "both" PNone [] true
  = Raise KeyError.
Proof. by_evaluation. Qed.

Lemma set_picks_frame (idx : Z) (which : string) (extrema : list string)
      (value time : pyval) :
  (which = "max"%string -> forall w, In w extrema -> w = "max"%string) ->
  (which = "min"%string -> forall w, In w extrema -> w = "min"%string) ->
  forall df df',
    set_picks idx extrema value time df = Ok df' ->
    exists f, df' = map f df /\ touches_only idx which f.
Proof.
  intros Hmax Hmin. induction extrema as [|w rest IH]; intros df df' H.
  - simpl in H. inversion H. exists (fun r => r). split.
    + now rewrite map_id.
    + intros r. repeat split; reflexivity.
  - simpl in H.
    destruct (as_val_cell value) as [v|ex]; [|discriminate]. cbn [rbind] in H.
    destruct (as_time_cell time) as [t|ex]; [|discriminate]. cbn [rbind] in H.
    apply IH in H.
    2:{ intros Hw w' Hin. apply Hmax; [exact Hw|now right]. }
    2:{ intros Hw w' Hin. apply Hmin; [exact Hw|now right]. }
    destruct H as [f [-> Hf]].
    rewrite at_label_compose by (intros; apply set_val_Date).
    unfold at_label. rewrite map_map.
    eexists. split; [reflexivity|].
    intros r. cbv beta.
    destruct (Hf (if Date r =? idx then set_time w t (set_val w v r) else r))
      as [Hd [Hother [Hkmin Hkmax]]].
    destruct (Date r =? idx) eqn:E.
    + split; [now rewrite Hd, set_time_Date, set_val_Date|].
      split; [intros Hne; apply Z.eqb_eq in E; contradiction|].
      split.
      * intros Hw. destruct (Hkmin Hw) as [-> ->].
        rewrite (Hmax Hw w) by now left. subst which. split; reflexivity.
      * intros Hw. destruct (Hkmax Hw) as [-> ->].
        rewrite (Hmin Hw w) by now left. subst which. split; reflexivity.
    + split; [exact Hd|]. split; [|split; assumption].
      intros Hne. apply Hother. exact Hne.
Qed.

(** X20. Whenever the method returns, the table it leaves has the same
    days in the same order, rows of other days are untouched, and a call
    for ['max'] leaves every minimum as it was (and conversely); this
    holds on every path, re-derivation from a sub-window included. *)
Theorem change_extrema_picks_touches_one_day
        (P : parsers) (self : DiurnalExtrema) (df df' : ResultTable)
        (day : pyday) (idx : Z) (which : string) (new_extrema : pyval)
        (find_between : list string) (verbose : bool) :
  Period_of P day = Ok idx ->
  change_extrema_picks P self df day which new_extrema find_between verbose
  = Ok df' ->
  map Date df' = map Date df
  /\ exists f, df' = map f df /\ touches_only idx which f.
Proof.
  intros Hp. unfold change_extrema_picks.
  destruct (check_input which _); [|discriminate]. cbn [rbind].
  rewrite Hp. cbn [rbind].
  destruct (negb _); [discriminate|].
  match goal with
  | |- rbind ?c _ = _ -> _ => destruct c as [[value time]|ex]; [|discriminate]
  end.
  cbn [rbind].
  destruct (if verbose then loc_column (which ++ "_val") else Ok tt);
    [|discriminate].
  cbn [rbind]. intros H.
  apply (set_picks_frame idx which) in H.
  - destruct H as [f [-> Hf]]. split; [|eauto].
    rewrite map_map. apply map_ext. intros r. apply Hf.
  - intros -> w. cbn. intuition.
  - intros -> w. cbn. intuition.
Qed.

Lemma change_extrema_picks_touches_one_day_witness :
  map Date
      (map (fun r => if Date r =? 0 then blank "max" r else r) two_day_table)
  = map Date two_day_table
  /\ exists f,
      map (fun r => if Date r =? 0 then blank "max" r else r) two_day_table
      = map f two_day_table
      /\ touches_only 0 "max" f.
Proof.
  apply (change_extrema_picks_touches_one_day no_strings
           (init dip true true false (WInt 4) None) two_day_table _
           (DayPeriod 0) 0 "max" PNone [] true).
  - reflexivity.
  - vm_compute. reflexivity.
Defined.

(** X21. The method refuses, with [ValueError], a [which] other than
    ['min'], ['max'] and ['both'] before it looks at anything else, and
    a day that is not in the table. *)
Theorem change_extrema_picks_refusals
        (P : parsers) (self : DiurnalExtrema) (df : ResultTable)
        (day : pyday) (which : string) (new_extrema : pyval)
        (find_between : list string) (verbose : bool) :
  (~ In which ["min"; "max"; "both"]%string ->
   change_extrema_picks P self df day which new_extrema find_between verbose
   = Raise ValueError)
  /\ (forall idx,
         In which ["min"; "max"; "both"]%string ->
         Period_of P day = Ok idx ->
         ~ In idx (map Date df) ->
         change_extrema_picks P self df day which new_extrema find_between
           verbose
         = Raise ValueError).
Proof.
  unfold change_extrema_picks. split.
  - intros H. now rewrite (check_input_raise _ _ H).
  - intros idx Hw Hp Hni.
    assert (check_input which ["min"; "max"; "both"]%string = Ok tt) as ->
        by (now apply check_input_ok).
    cbn [rbind]. rewrite Hp. cbn [rbind].
    destruct (existsb (Z.eqb idx) (map Date df)) eqn:E; [|reflexivity].
    apply existsb_exists in E. destruct E as [x [Hx He]].
    apply Z.eqb_eq in He. subst. contradiction.
Qed.

Lemma change_extrema_picks_refusals_witness :
  change_extrema_picks no_strings
    (init dip true true false (WInt 4) None) two_day_table
    (DayPeriod 7) "min" PNone [] true
  = Raise ValueError.
Proof.
  apply (proj2 (change_extrema_picks_refusals no_strings
                  (init dip true true false (WInt 4) None) two_day_table
                  (DayPeriod 7) "min" PNone [] true) 7).
  - left. reflexivity.
  - reflexivity.
  - simpl. intuition discriminate.
Defined.

(** X22. Re-derivation from a sub-window cannot serve ['both']: with a
    sub-window given and [which] being ['both'] every call fails, since
    the extremum is located with [which] itself as the mode. *)
Theorem change_extrema_picks_both_between_always_fails
        (P : parsers) (self : DiurnalExtrema) (df : ResultTable)
        (day : pyday) (new_extrema : pyval) (t : string) (times : list string)
        (verbose : bool) :
  exists ex,
    change_extrema_picks P self df day "both" new_extrema (t :: times) verbose
    = Raise ex.
Proof.
  unfold change_extrema_picks. cbn [check_input existsb String.eqb Ascii.eqb
    Bool.eqb orb rbind].
  destruct (Period_of P day) as [idx|ex]; cbn [rbind]; [|eauto].
  destruct (negb _); [eauto|].
  destruct (extrema_slice day (t :: times)) as [bounds|ex];
    cbn [rbind]; [|eauto].
  destruct bounds as [|t0 [|t1 [|t2 r]]]; cbn [rbind]; eauto.
  destruct (slice_between P (BStr t0) (BStr t1) (timeseries self))
    as [subset|ex]; cbn [rbind]; [|eauto].
  unfold get_extrema. cbn [check_input existsb String.eqb
    Ascii.eqb Bool.eqb orb rbind]. eauto.
Qed.

(** ** More on the occurrence predictor *)

Lemma Timestamp_round_hour (t : Timestamp) :
  exists k,
    Timestamp_round t ns_per_hour = k * ns_per_hour
    /\ 2 * Z.abs (t - k * ns_per_hour) <= ns_per_hour.
Proof.
  assert (0 < ns_per_hour) as HH by reflexivity.
  assert (ns_per_hour / 2 * 2 = ns_per_hour) as Hhalf by reflexivity.
  pose proof (Z.div_mod t ns_per_hour ltac:(lia)) as Hd.
  pose proof (Z.mod_pos_bound t ns_per_hour HH) as Hb.
  unfold Timestamp_round. change (Z.odd ns_per_hour) with false. cbv zeta.
  destruct ((ns_per_hour / 2 <? t mod ns_per_hour)
            || ((t mod ns_per_hour =? ns_per_hour / 2)
                && Z.odd (t / ns_per_hour))) eqn:E.
  - exists (t / ns_per_hour + 1). split; [reflexivity|].
    apply orb_true_iff in E. destruct E as [E|E].
    + apply Z.ltb_lt in E. lia.
    + apply andb_true_iff in E. destruct E as [E _]. apply Z.eqb_eq in E. lia.
  - exists (t / ns_per_hour). split; [reflexivity|].
    apply orb_false_iff in E. destruct E as [E _]. apply Z.ltb_ge in E. lia.
Qed.

Lemma Timestamp_hour_of_whole_hour (k : Z) :
  Timestamp_hour (k * ns_per_hour) = k mod 24.
Proof.
  unfold Timestamp_hour. change ns_per_day with (24 * ns_per_hour).
  rewrite Z.mul_mod_distr_r by discriminate.
  apply Z.div_mul. discriminate.
Qed.

(** X23. [add_occurance] fails with [AttributeError] for a missing time;
    for a timestamp it keeps the list and appends one hour between 0 and
    23, the hour of day of the whole hour nearest to the timestamp (so
    23:40 counts as hour 0). *)
Theorem add_occurance_appends_the_nearest_hour
        (occurance_list : list Z) :
  add_occurance None occurance_list = Raise AttributeError
  /\ forall t : Timestamp,
      exists k : Z,
        add_occurance (Some t) occurance_list
        = Ok (occurance_list ++ [k mod 24])
        /\ 0 <= k mod 24 <= 23
        /\ 2 * Z.abs (t - k * ns_per_hour) <= ns_per_hour.
Proof.
  split; [reflexivity|]. intros t.
  destruct (Timestamp_round_hour t) as [k [Hk Hn]]. exists k.
  unfold add_occurance. rewrite Hk, Timestamp_hour_of_whole_hour.
  split; [reflexivity|]. split; [|exact Hn].
  pose proof (Z.mod_pos_bound k 24 ltac:(lia)). lia.
Qed.

Example late_evening_counts_as_hour_zero :
  add_occurance (Some (at_half_hour 47 + 10 * ns_per_minute)) [4] = Ok [4; 0].
Proof. by_evaluation. Qed.

Lemma add_occurance_valid (t : option Timestamp) (l l' : list Z) :
  Forall valid_hour l -> add_occurance t l = Ok l' ->
  Forall valid_hour l' /\ List.length l' = S (List.length l).
Proof.
  intros Hl H. destruct t as [t|]; [|discriminate].
  destruct (Timestamp_round_hour t) as [k [Hk _]].
  unfold add_occurance in H. rewrite Hk, Timestamp_hour_of_whole_hour in H.
  inversion H. split.
  - apply Forall_app. split; [exact Hl|]. constructor; [|constructor].
    unfold valid_hour. pose proof (Z.mod_pos_bound k 24 ltac:(lia)). lia.
  - rewrite length_app. simpl. lia.
Qed.

Lemma predict_loop_lists (P : parsers) (self : DiurnalExtrema)
      (calib_data : Series) (days : list Z) :
  forall (mins maxs mins' maxs' : list Z) (tp tp' : tape),
    Forall valid_hour mins -> Forall valid_hour maxs ->
    predict_loop P self calib_data days mins maxs tp = Ok (mins', maxs', tp') ->
    (Forall valid_hour mins'
     /\ List.length mins' = (List.length mins + List.length days)%nat)
    /\ (Forall valid_hour maxs'
        /\ List.length maxs' = (List.length maxs + List.length days)%nat).
Proof.
  induction days as [|day rest IH]; intros mins maxs mins' maxs' tp tp' Hm Hx H.
  - simpl in H. unfold ret in H. inversion H. subst.
    rewrite !Nat.add_0_r. auto.
  - simpl in H. unfold mbind in H.
    destruct (get_real_extrema P calib_data (WPeriod day) "min" tp)
      as [[[minVal minTime] tp1]|ex]; [|discriminate].
    match type of H with
    | match ?c tp1 with _ => _ end = _ =>
        destruct (c tp1) as [[[maxVal maxTime] tp2]|ex]; [|discriminate]
    end.
    unfold lift in H.
    destruct (add_occurance minTime mins) as [mins1|ex] eqn:E1; [|discriminate].
    destruct (add_occurance maxTime maxs) as [maxs1|ex] eqn:E2; [|discriminate].
    apply (add_occurance_valid _ _ _ Hm) in E1.
    apply (add_occurance_valid _ _ _ Hx) in E2.
    destruct E1 as [Hm1 Hl1], E2 as [Hx1 Hl2].
    apply (IH _ _ _ _ _ _ Hm1 Hx1) in H. cbn [List.length].
    rewrite Hl1, Hl2 in H. rewrite <- !Nat.add_succ_comm. exact H.
Qed.

Lemma Zround_half_even_bounds (n d B : Z) :
  0 < d -> 0 <= n <= B * d ->
  0 <= Zround_half_even n d <= B.
Proof.
  intros Hd Hn. unfold Zround_half_even. cbv zeta.
  pose proof (Z.div_mod n d ltac:(lia)) as Hdm.
  pose proof (Z.mod_pos_bound n d Hd) as Hr.
  assert (0 <= n / d) by (apply Z.div_pos; lia).
  assert (n / d <= B) by (apply Z.div_le_upper_bound; lia).
  destruct ((d <? 2 * (n mod d)) || ((2 * (n mod d) =? d) && Z.odd (n / d)))
    eqn:E; [|lia].
  assert (0 < n mod d) as Hpos.
  { apply orb_true_iff in E. destruct E as [E|E].
    - apply Z.ltb_lt in E. lia.
    - apply andb_true_iff in E. destruct E as [E _]. apply Z.eqb_eq in E. lia. }
  assert (n / d < B) by nia. lia.
Qed.

Lemma sum_hours_bounds (l : list Z) :
  Forall valid_hour l ->
  0 <= sum_hours l <= 23 * Z.of_nat (List.length l).
Proof.
  induction 1 as [|h l Hh Hl IH]; [simpl; lia|].
  unfold valid_hour in Hh. cbn [sum_hours fold_right List.length].
  fold (sum_hours l). rewrite Nat2Z.inj_succ. lia.
Qed.

Lemma binary64_exponent_le (a d : Z) :
  binary64_exponent a d <= Z.log2 a - Z.log2 d.
Proof.
  unfold binary64_exponent. cbv zeta.
  destruct (if 0 <=? Z.log2 a - Z.log2 d
            then d * 2 ^ (Z.log2 a - Z.log2 d) <=? a
            else d <=? a * 2 ^ (- (Z.log2 a - Z.log2 d))); lia.
Qed.

(** The binary64 quotient of a sum of hours by their number lies, like
    the exact quotient, between 0 and 23. *)
Lemma binary64_quotient_hours (n : Z) (d : positive) :
  0 <= n <= 23 * Zpos d ->
  0 <= Qnum (binary64_quotient n d)
  <= 23 * Zpos (Qden (binary64_quotient n d)).
Proof.
  intros Hn. unfold binary64_quotient.
  destruct (n =? 0) eqn:E0; [cbn [Qnum Qden]; lia|].
  apply Z.eqb_neq in E0. cbv zeta.
  assert (0 < n) as Hpos by lia.
  rewrite Z.abs_eq by lia. rewrite Z.sgn_pos by lia.
  set (p := 52 - binary64_exponent n (Zpos d)).
  assert (0 <= p) as Hp.
  { pose proof (binary64_exponent_le n (Zpos d)) as He.
    assert (Z.log2 n <= 5 + Z.log2 (Zpos d)) as Hl.
    { transitivity (Z.log2 (Zpos d * 2 ^ 5)).
      - apply Z.log2_le_mono. lia.
      - rewrite Z.log2_mul_pow2 by lia. lia. }
    unfold p. lia. }
  assert ((0 <=? p) = true) as -> by (now apply Z.leb_le).
  cbn [Qnum Qden].
  assert (0 < 2 ^ p) as H2 by (apply Z.pow_pos_nonneg; lia).
  rewrite Z2Pos.id by exact H2. rewrite Z.mul_1_l.
  apply Zround_half_even_bounds; [lia|]. nia.
Qed.

Lemma mean_occurance_valid (l : list Z) :
  l <> [] -> Forall valid_hour l ->
  exists k, mean_occurance l = Ok (Qmake k 1000) /\ 0 <= k <= 23000.
Proof.
  intros Hne Hl. destruct l as [|h r]; [contradiction|].
  set (l := h :: r) in *.
  pose proof (sum_hours_bounds l Hl) as Hs.
  assert (Zpos (Pos.of_nat (List.length l)) = Z.of_nat (List.length l)) as Hp.
  { unfold l. cbn [List.length]. rewrite Nat2Z.inj_succ.
    rewrite <- Zpos_P_of_succ_nat. f_equal.
    rewrite Pos.of_nat_succ. reflexivity. }
  pose proof (binary64_quotient_hours (sum_hours l)
                (Pos.of_nat (List.length l)) ltac:(lia)) as Hq.
  set (q := binary64_quotient (sum_hours l) (Pos.of_nat (List.length l)))
    in *.
  exists (Zround_half_even (1000 * Qnum q) (Zpos (Qden q))).
  split; [reflexivity|].
  apply Zround_half_even_bounds; lia.
Qed.

(** The quotient that is rounded is the binary64 one: 323/80 is a tie
    at the thousandth as a fraction, and below it as a float. *)
Example mean_occurance_rounds_the_float :
  mean_occurance (repeat 4 77 ++ repeat 5 3) = Ok (Qmake 4037 1000)
  /\ sum_hours (repeat 4 77 ++ repeat 5 3) = 323
  /\ round3 (Qmake 323 80) = Qmake 4038 1000.
Proof. repeat split; by_evaluation. Qed.

(** X24. When the predictor returns, the two mean hours it returns are
    whole thousandths of an hour between 0 and 23. *)
Theorem predict_extrema_means_are_hours
        (P : parsers) (self : DiurnalExtrema) (tp tp' : tape) (mn mx : Q) :
  predict_extrema P self tp = Ok (mn, mx, tp') ->
  exists a b,
    mn = Qmake a 1000 /\ mx = Qmake b 1000
    /\ 0 <= a <= 23000 /\ 0 <= b <= 23000.
Proof.
  unfold predict_extrema, mbind, lift.
  destruct (to_exact_indexing P (window self) (timeseries self) tp)
    as [[[[a b]|] tp1]|ex]; try discriminate.
  destruct (stamp_slice a b (timeseries self)) as [|p r] eqn:Ec;
    [discriminate|].
  set (calib := p :: r) in *.
  set (days := unique (map to_period_D (index calib))).
  assert (days <> []) as Hdays by (unfold days, calib; discriminate).
  destruct (predict_loop P self calib days [] [] tp1)
    as [[[mins maxs] tp2]|ex] eqn:E; [|discriminate].
  apply predict_loop_lists in E; [|constructor|constructor].
  destruct E as [[Hm Hlm] [Hx Hlx]].
  assert (mins <> []) as Hmne.
  { intros ->. destruct days; [contradiction|discriminate]. }
  assert (maxs <> []) as Hxne.
  { intros ->. destruct days; [contradiction|discriminate]. }
  destruct (mean_occurance_valid mins Hmne Hm) as [k1 [-> H1]].
  destruct (mean_occurance_valid maxs Hxne Hx) as [k2 [-> H2]].
  unfold ret. intros H. inversion H. subst. exists k1, k2. auto.
Qed.

Lemma predict_extrema_means_are_hours_witness :
  exists a b,
    Qmake 3000 1000 = Qmake a 1000 /\ Qmake 21000 1000 = Qmake b 1000
    /\ 0 <= a <= 23000 /\ 0 <= b <= 23000.
Proof.
  apply (predict_extrema_means_are_hours no_strings
           (init three_days false true true (WInt 1) None) [] []).
  vm_compute. reflexivity.
Defined.

(** ** Candidate windows *)

Lemma Zround_half_even_shift (n d k : Z) :
  0 < d -> Z.even k = true ->
  Zround_half_even (n + k * d) d = Zround_half_even n d + k.
Proof.
  intros Hd Hk. unfold Zround_half_even. cbv zeta.
  rewrite Z.div_add by lia. rewrite Z.mod_add by lia.
  assert (Z.odd (n / d + k) = Z.odd (n / d)) as ->.
  { rewrite Z.odd_add. rewrite <- (Z.negb_even k), Hk. cbn.
    now rewrite xorb_false_r. }
  destruct ((d <? 2 * (n mod d)) || ((2 * (n mod d) =? d) && Z.odd (n / d)));
    lia.
Qed.

Lemma Timestamp_round_second_shift (t k : Z) :
  Z.even k = true ->
  Timestamp_round (t + k * ns_per_second) ns_per_second
  = Timestamp_round t ns_per_second + k * ns_per_second.
Proof.
  intros Hk. unfold Timestamp_round. change (Z.odd ns_per_second) with false.
  cbv zeta. rewrite Z.div_add by discriminate.
  rewrite Z.mod_add by discriminate.
  assert (Z.odd (t / ns_per_second + k) = Z.odd (t / ns_per_second)) as ->.
  { rewrite Z.odd_add. rewrite <- (Z.negb_even k), Hk. cbn.
    now rewrite xorb_false_r. }
  destruct ((ns_per_second / 2 <? t mod ns_per_second)
            || ((t mod ns_per_second =? ns_per_second / 2)
                && Z.odd (t / ns_per_second))); lia.
Qed.

Lemma Timedelta_of_hours_shift (c : Q) (n : Z) :
  Timedelta_of_hours (c + inject_Z n)
  = Timedelta_of_hours c + Timedelta_hours n.
Proof.
  unfold Timedelta_of_hours, Timedelta_hours. destruct c as [cn cd].
  cbn [Qplus inject_Z Qnum Qden]. rewrite Pos.mul_1_r, Z.mul_1_r.
  replace ((cn + n * Zpos cd) * 3600000000)
    with (cn * 3600000000 + (n * 3600000000) * Zpos cd) by lia.
  rewrite Zround_half_even_shift.
  - change ns_per_hour with (3600000000 * 1000). lia.
  - reflexivity.
  - rewrite Z.even_mul. now rewrite orb_true_r.
Qed.

Lemma create_timewindow_span (day : Z) (center : Q) (numhours : Z) :
  snd (create_timewindow day center numhours)
  - fst (create_timewindow day center numhours)
  = Timedelta_hours (2 * numhours).
Proof.
  unfold create_timewindow. cbn [fst snd].
  replace (center + inject_Z numhours)%Q
    with ((center - inject_Z numhours) + inject_Z (2 * numhours))%Q.
  - rewrite Timedelta_of_hours_shift.
    set (a := Period_start_time day
              + Timedelta_of_hours (center - inject_Z numhours)).
    replace (Period_start_time day
             + (Timedelta_of_hours (center - inject_Z numhours)
                + Timedelta_hours (2 * numhours)))
      with (a + (2 * numhours * 3600) * ns_per_second)
      by (unfold a, Timedelta_hours;
          change ns_per_hour with (3600 * ns_per_second); lia).
    rewrite Timestamp_round_second_shift.
    + unfold Timedelta_hours. change ns_per_hour with (3600 * ns_per_second).
      lia.
    + rewrite <- Z.mul_assoc. rewrite Z.even_mul. reflexivity.
  - destruct center as [cn cd]. unfold Qminus, Qplus, Qopp, inject_Z.
    cbn [Qnum Qden]. rewrite !Pos.mul_1_r, !Z.mul_1_r. f_equal. lia.
Qed.

Lemma Timestamp_round_whole_second (t : Timestamp) :
  Timestamp_round t ns_per_second mod ns_per_second = 0.
Proof.
  unfold Timestamp_round. change (Z.odd ns_per_second) with false. cbv zeta.
  destruct ((ns_per_second / 2 <? t mod ns_per_second)
            || ((t mod ns_per_second =? ns_per_second / 2)
                && Z.odd (t / ns_per_second)));
    apply Z.mod_mul; discriminate.
Qed.

(** X25. For a centre given in thousandths of an hour, which is what
    [mean_occurance] returns, the window built around it starts and ends
    on a whole second and is exactly twice the offset long: rounding its
    two ends to the second moves them by the same amount. *)
Theorem create_timewindow_spans_twice_the_offset
        (day : Z) (thousandths : Z) (numhours : Z) :
  snd (create_timewindow day (Qmake thousandths 1000) numhours)
  - fst (create_timewindow day (Qmake thousandths 1000) numhours)
  = Timedelta_hours (2 * numhours)
  /\ fst (create_timewindow day (Qmake thousandths 1000) numhours)
     mod ns_per_second = 0
  /\ snd (create_timewindow day (Qmake thousandths 1000) numhours)
     mod ns_per_second = 0.
Proof.
  split; [apply create_timewindow_span|].
  unfold create_timewindow. cbn [fst snd].
  split; apply Timestamp_round_whole_second.
Qed.

(** ** Predicted windows that cross *)

Lemma create_timewindow_ordered (day : Z) (center : Q) (numhours : Z) :
  0 < numhours ->
  fst (create_timewindow day center numhours)
  < snd (create_timewindow day center numhours).
Proof.
  intros H. pose proof (create_timewindow_span day center numhours) as Hs.
  unfold Timedelta_hours in Hs. assert (0 < ns_per_hour) by reflexivity. nia.
Qed.

(** X26. With predicted timing and minimum-first, a day whose minimum is
    found at or after the end of the window predicted for the maximum
    stops the extraction with [ValueError]: the maximum window is cut to
    start at the minimum, which leaves its end before its start. *)
Theorem search_day_minimum_past_maximum_window
        (P : parsers) (self : DiurnalExtrema) (cache : option (Q * Q))
        (day : Z) (tp tp0 tp1 : tape) (minOccurs maxOccurs : Q)
        (minVal : option float) (minTime : Timestamp) :
  predictTiming self = true ->
  minfirst self = true ->
  cached_predict_extrema P self cache tp = Ok ((minOccurs, maxOccurs), tp0) ->
  get_real_extrema P (timeseries self)
    (WSeq [BTimestamp (fst (create_timewindow day minOccurs 8));
           BTimestamp (snd (create_timewindow day minOccurs 8))])
    "min" tp0
  = Ok ((minVal, Some minTime), tp1) ->
  snd (create_timewindow day maxOccurs 8) <= minTime ->
  search_day P self cache day tp = Raise ValueError.
Proof.
  intros Hp Hf Hc Hmin Hle. unfold search_day. rewrite Hp. unfold mbind.
  rewrite Hc. cbn [get_occurance_windows map]. rewrite Hmin. rewrite Hf.
  cbn [andb].
  pose proof (create_timewindow_ordered day maxOccurs 8 ltac:(lia)) as Ho.
  assert ((fst (create_timewindow day maxOccurs 8) <? minTime) = true) as ->
      by (apply Z.ltb_lt; lia).
  cbn [fst snd].
  unfold get_real_extrema, mbind, lift.
  cbn [check_input existsb String.eqb Ascii.eqb Bool.eqb orb].
  rewrite to_exact_indexing_inverted_pair by exact Hle. reflexivity.
Qed.

Lemma search_day_minimum_past_maximum_window_witness :
  search_day no_strings (init evening_lows true false true (WInt 1) None)
    (Some (Qmake 21000 1000, Qmake 3000 1000)) 0 []
  = Raise ValueError.
Proof.
  apply (search_day_minimum_past_maximum_window no_strings
           (init evening_lows true false true (WInt 1) None)
           (Some (Qmake 21000 1000, Qmake 3000 1000)) 0 [] [] []
           (Qmake 21000 1000) (Qmake 3000 1000)
           (Some 2%float) (at_half_hour 42)).
  - reflexivity.
  - reflexivity.
  - reflexivity.
  - vm_compute. reflexivity.
  - vm_compute. discriminate.
Defined.

(** A series whose low comes in the evening, after the high: with
    minimum-first and predicted timing the constructor fails. *)
Example evening_lows_cannot_be_extracted :
  predict_extrema no_strings
    (init evening_lows true false true (WInt 1) None) []
  = Ok (Qmake 21000 1000, Qmake 3000 1000, [])
  /\ find_diurnal_extrema no_strings
       (init evening_lows true false true (WInt 1) None) []
     = Raise ValueError.
Proof. split; by_evaluation. Qed.

(** ** Clock readings *)

Lemma clock_fields (t : Timestamp) :
  0 <= Timestamp_hour t < 24
  /\ 0 <= Timestamp_minute t < 60
  /\ 0 <= Timestamp_second t < 60.
Proof.
  unfold Timestamp_hour, Timestamp_minute, Timestamp_second.
  assert (0 < ns_per_second) by reflexivity.
  assert (0 < ns_per_minute) by reflexivity.
  assert (0 < ns_per_hour) by reflexivity.
  assert (0 < ns_per_day) by reflexivity.
  pose proof (Z.mod_pos_bound t ns_per_day ltac:(lia)).
  pose proof (Z.mod_pos_bound t ns_per_hour ltac:(lia)).
  pose proof (Z.mod_pos_bound t ns_per_minute ltac:(lia)).
  repeat split.
  - apply Z.div_pos; lia.
  - apply Z.div_lt_upper_bound; [lia|].
    change (ns_per_hour * 24) with ns_per_day. lia.
  - apply Z.div_pos; lia.
  - apply Z.div_lt_upper_bound; [lia|].
    change (ns_per_minute * 60) with ns_per_hour. lia.
  - apply Z.div_pos; lia.
  - apply Z.div_lt_upper_bound; [lia|].
    change (ns_per_second * 60) with ns_per_minute. lia.
Qed.

Lemma Zround_half_even_exact (n d : Z) :
  0 < d -> Zround_half_even (n * d) d = n.
Proof.
  intros Hd. unfold Zround_half_even. cbv zeta.
  rewrite Z.div_mul by lia. rewrite Z.mod_mul by lia.
  assert ((d <? 2 * 0) = false) as -> by (apply Z.ltb_ge; lia).
  assert ((2 * 0 =? d) = false) as -> by (apply Z.eqb_neq; lia).
  reflexivity.
Qed.

(** X27. Reading a timestamp as decimal hours and printing the result
    with [hour_as_time] gives back the hour and the minute of the
    timestamp; the decimal hours lie between 0 included and 24
    excluded. *)
Theorem hour_as_time_of_decimal_hours (t : Timestamp) :
  hour_as_time (timestamp_to_decimal_hours t)
  = (Timestamp_hour t, Timestamp_minute t)
  /\ (0 <= timestamp_to_decimal_hours t)%Q
  /\ (timestamp_to_decimal_hours t < 24)%Q.
Proof.
  destruct (clock_fields t) as [Hh [Hm Hs]].
  set (h := Timestamp_hour t) in *. set (m := Timestamp_minute t) in *.
  set (s := Timestamp_second t) in *.
  assert (timestamp_to_decimal_hours t
          = Qmake (h * 3600 + (m * 60 + s) * 1) 3600) as Hd by reflexivity.
  rewrite Hd. split; [|split].
  - unfold hour_as_time, timedelta_seconds. cbn [Qnum Qden].
    replace ((h * 3600 + (m * 60 + s) * 1) * 3600000000)
      with (((h * 3600 + m * 60 + s) * 1000000) * 3600) by lia.
    rewrite Zround_half_even_exact by lia.
    rewrite Z.div_mul by lia.
    rewrite (Z.mod_small _ 86400) by lia.
    f_equal.
    + symmetry. apply (Z.div_unique _ _ _ (m * 60 + s)); [left|]; lia.
    + replace ((h * 3600 + m * 60 + s) / 60) with (h * 60 + m)
        by (apply (Z.div_unique _ _ _ s); [left|]; lia).
      symmetry. apply (Z.mod_unique _ _ h); [left|]; lia.
  - unfold Qle. cbn [Qnum Qden]. lia.
  - unfold Qlt. cbn [Qnum Qden]. lia.
Qed.

Example quarter_past_five_reads_five_fifteen :
  timestamp_to_decimal_hours (at_half_hour 10 + 15 * ns_per_minute)
  = Qmake 18900 3600
  /\ hour_as_time (Qmake 525 100) = (5, 15).
Proof. split; by_evaluation. Qed.
